(** * Hand pose and motion classifier: [hand_transition_updated.py]

    A shallow embedding of the [HandDetector] class: the orientation test
    [is_palm_showing], the finger classifier [count_fingers], the per-hand
    rolling history, the flip and motion detector and the frame driver
    [detect_hands].

    Numbers.  Python floats and NumPy's [float64] are IEEE 754 binary64
    numbers; they are Rocq's primitive floats here, so that every
    subtraction, product, quotient and comparison of the source rounds as
    it does in the program, and a decimal literal such as [0.015] is the
    binary64 number nearest to it, as in Python.  The one operation the
    source does not spell out, [np.linalg.norm], which NumPy computes in
    compiled code of its own, is a parameter of the development.

    Exceptions.  Indexing a Python list out of range raises [IndexError];
    the embedding keeps that outcome explicit in the type [py]. *)

From Stdlib Require Import String Ascii ZArith QArith Qabs List Bool Lia Lqa.
From Stdlib Require Import DecimalString Floats.
Import ListNotations.

(** A decimal literal that is no binary64 number stands for the nearest
    one. *)
Set Warnings "-inexact-float".

Local Open Scope Z_scope.

(** ** Python values and exceptions *)

Inductive py (A : Type) : Type :=
| Ret (a : A)
| IndexError.

Arguments Ret {A} a.
Arguments IndexError {A}.

Definition bind {A B : Type} (m : py A) (k : A -> py B) : py B :=
  match m with
  | Ret a => k a
  | IndexError => IndexError
  end.

Notation "x <- m ;; k" := (bind m (fun x => k))
  (at level 61, m at next level, right associativity).
Notation "' pat <- m ;; k" := (bind m (fun x => match x with pat => k end))
  (at level 61, pat pattern, m at next level, right associativity).

Fixpoint mapM {A B : Type} (f : A -> py B) (l : list A) : py (list B) :=
  match l with
  | [] => Ret []
  | a :: t => b <- f a ;; bs <- mapM f t ;; Ret (b :: bs)
  end.

(** [l[i]]: a negative index counts from the end; out of range raises. *)
Definition getitem {A : Type} (l : list A) (i : Z) : py A :=
  let n := Z.of_nat (length l) in
  let j := if i <? 0 then i + n else i in
  if (0 <=? j) && (j <? n)
  then match nth_error l (Z.to_nat j) with
       | Some a => Ret a
       | None => IndexError
       end
  else IndexError.

Fixpoint replace_nth {A : Type} (n : nat) (v : A) (l : list A) : list A :=
  match l, n with
  | [], _ => []
  | _ :: t, O => v :: t
  | a :: t, S k => a :: replace_nth k v t
  end.

(** [l[i] = v]: same index rule as [getitem]. *)
Definition setitem {A : Type} (l : list A) (i : Z) (v : A) : py (list A) :=
  let n := Z.of_nat (length l) in
  let j := if i <? 0 then i + n else i in
  if (0 <=? j) && (j <? n)
  then Ret (replace_nth (Z.to_nat j) v l)
  else IndexError.

(** [range(n)] *)
Definition range (n : nat) : list Z := map Z.of_nat (seq 0 n).

(** [enumerate(l)] *)
Definition enumerate {A : Type} (l : list A) : list (Z * A) :=
  combine (range (length l)) l.

(** [sum] over a list of booleans: [True] counts 1, [False] counts 0. *)
Definition sum_bool (l : list bool) : Z :=
  fold_left (fun acc (b : bool) => acc + (if b then 1 else 0)) l 0.

(** ** Numbers *)

(** Python's [a > b] on floats: false when either side is NaN. *)
Definition gtb (a b : float) : bool := (b <? a)%float.

Infix ">?" := gtb : float_scope.

(** [a < b] and [a > b] as statements: the comparison answers [True]. *)
Definition flt (a b : float) : Prop := (a <? b)%float = true.
Definition fgt (a b : float) : Prop := (a >? b)%float = true.

Infix "<" := flt : float_scope.
Infix ">" := fgt : float_scope.

(** [sum] over a list of floats: the items are added one by one, from the
    left, to the start value 0. *)
Definition sum_float (l : list float) : float :=
  fold_left PrimFloat.add l 0%float.

(** The float a small non-negative Python int converts to. *)
Definition float_of_int (n : Z) : float :=
  PrimFloat.of_uint63 (Uint63.of_Z n).

(** The exact value of a finite float, as a rational. *)
Definition exact (v : float) : Q :=
  match Prim2SF v with
  | S754_finite s m e =>
      (inject_Z (if s then Z.neg m else Z.pos m) * Qpower 2 e)%Q
  | _ => 0%Q
  end.

(** ** Vectors and landmarks *)

Record vec3 : Type := Vec3 { vx : float; vy : float; vz : float }.

(** [a - b] on arrays: component by component. *)
Definition vsub (a b : vec3) : vec3 :=
  Vec3 (vx a - vx b) (vy a - vy b) (vz a - vz b).

(** [a / k] on an array and a number. *)
Definition vscale_inv (a : vec3) (k : float) : vec3 :=
  Vec3 (vx a / k) (vy a / k) (vz a / k).

(** [np.cross] of two 3-vectors: each component is the difference of two
    products, every product and every difference rounded on its own. *)
Definition cross (a b : vec3) : vec3 :=
  Vec3 (vy a * vz b - vz a * vy b)
       (vz a * vx b - vx a * vz b)
       (vx a * vy b - vy a * vx b).

(** A number that compares equal to 0: one of the two float zeros. *)
Definition is_zero (v : float) : Prop := (v =? 0)%float = true.

(** NaN is the one float that does not compare equal to itself. *)
Definition is_nan (v : float) : Prop := (v =? v)%float = false.

(** A zero or NaN, read off the representation: what [v - v] is, and
    every sum, quotient and absolute value built from such differences. *)
Definition zero_or_nan (v : float) : Prop :=
  Prim2SF v = S754_nan \/ exists s, Prim2SF v = S754_zero s.


(** One landmark: the fields [x], [y], [z] of a MediaPipe point. *)
Record point : Type := Point { x : float; y : float; z : float }.

Definition np_array (p : point) : vec3 := Vec3 (x p) (y p) (z p).

(** [hand_landmarks.landmark] *)
Abbreviation landmarks := (list point) (only parsing).

(** The handedness label, ["Left"] or ["Right"]. *)
Inductive hand_type : Type := Left | Right.

Definition label (h : hand_type) : string :=
  match h with
  | Left => "Left"
  | Right => "Right"
  end.

(** The cross product both [is_palm_showing] and [track_hand_motion] form
    from wrist (0), index MCP (5) and pinky MCP (17). *)
Definition palm_normal (wrist index_mcp pinky_mcp : point) : vec3 :=
  cross (vsub (np_array index_mcp) (np_array wrist))
        (vsub (np_array pinky_mcp) (np_array wrist)).

(** ** [is_palm_showing] *)

Definition is_palm_showing (hand_landmarks : landmarks) (h : hand_type)
  : py bool :=
  wrist <- getitem hand_landmarks 0 ;;
  index_mcp <- getitem hand_landmarks 5 ;;
  pinky_mcp <- getitem hand_landmarks 17 ;;
  let normal := palm_normal wrist index_mcp pinky_mcp in
  match h with
  | Right => Ret (vz normal >? 0)%float
  | Left => Ret (vz normal <? 0)%float
  end.

(** ** [count_fingers] *)

Definition finger_tips : list Z := [8; 12; 16; 20].
Definition thumb_tip : Z := 4.
Definition thumb_ip : Z := 3.

(** The loop [for i, tip in enumerate(finger_tips)] over the status list. *)
Fixpoint finger_loop (points : list (float * float * float))
  (its : list (Z * Z))
  (finger_statuses : list bool) : py (list bool) :=
  match its with
  | [] => Ret finger_statuses
  | (i, tip) :: rest =>
      a <- getitem points tip ;;
      b <- getitem points (tip - 2) ;;
      st <- setitem finger_statuses (i + 1)
              (snd (fst a) <? snd (fst b))%float ;;
      finger_loop points rest st
  end.

Definition count_fingers (hand_landmarks : landmarks) (h : hand_type)
  : py (Z * list bool) :=
  points <- mapM (fun idx => p <- getitem hand_landmarks idx ;;
                             Ret (x p, y p, z p)) (range 21) ;;
  let finger_statuses := repeat false 5 in
  palm_showing <- is_palm_showing hand_landmarks h ;;
  tip <- getitem points thumb_tip ;;
  ip <- getitem points thumb_ip ;;
  let tx := fst (fst tip) in
  let ix := fst (fst ip) in
  st0 <- match h with
         | Left =>
             setitem finger_statuses 0
               (if palm_showing then (tx >? ix)%float else (tx <? ix)%float)
         | Right =>
             setitem finger_statuses 0
               (if palm_showing then (tx <? ix)%float else (tx >? ix)%float)
         end ;;
  st <- finger_loop points (enumerate finger_tips) st0 ;;
  Ret (sum_bool st, st).

(** ** Detector state *)

(** One entry of [hand_history]: the dict [current_data]. *)
Record sample : Type := Sample {
  d_wrist : vec3;
  d_normal : vec3;
  d_is_palm_showing : bool;
  d_middle_tip : vec3
}.

(** A dict with exactly the keys ["Left"] and ["Right"]. *)
Record per_hand (A : Type) : Type := PerHand { at_left : A; at_right : A }.

Arguments PerHand {A} at_left at_right.
Arguments at_left {A} p.
Arguments at_right {A} p.

Definition get {A : Type} (h : hand_type) (m : per_hand A) : A :=
  match h with
  | Left => at_left m
  | Right => at_right m
  end.

Definition set {A : Type} (h : hand_type) (v : A) (m : per_hand A)
  : per_hand A :=
  match h with
  | Left => PerHand v (at_right m)
  | Right => PerHand (at_left m) v
  end.

(** [deque(maxlen=10)]: appending to a full deque drops the leftmost item. *)
Definition maxlen : nat := 10.

Definition deque_append {A : Type} (dq : list A) (v : A) : list A :=
  if (maxlen <=? length dq)%nat then tl dq ++ [v] else dq ++ [v].

Definition cooldown_frames : Z := 15.

Record HandDetector : Type := Detector {
  hand_history : per_hand (list sample);
  hand_motion_status : per_hand string;
  flip_cooldown : per_hand Z
}.

(** The state [__init__] builds. *)
Definition init : HandDetector :=
  Detector (PerHand [] []) (PerHand "Unknown" "Unknown")%string (PerHand 0 0).

Definition set_history (h : hand_type) (v : list sample) (d : HandDetector)
  : HandDetector :=
  Detector (set h v (hand_history d)) (hand_motion_status d) (flip_cooldown d).

Definition set_status (h : hand_type) (v : string) (d : HandDetector)
  : HandDetector :=
  Detector (hand_history d) (set h v (hand_motion_status d)) (flip_cooldown d).

Definition set_cooldown (h : hand_type) (v : Z) (d : HandDetector)
  : HandDetector :=
  Detector (hand_history d) (hand_motion_status d) (set h v (flip_cooldown d)).

(** ** Formatting: [f"{v:.4f}"] *)

(** Nearest integer, ties to even. *)
Definition round_half_even (q : Q) : Z :=
  let n := Qnum q in
  let d := QDen q in
  let f := n / d in
  let r := n mod d in
  if 2 * r <? d then f
  else if d <? 2 * r then f + 1
  else if Z.even f then f else f + 1.

Definition digits (n : Z) : string :=
  NilZero.string_of_uint (N.to_uint (Z.to_N n)).

Definition digit (n : Z) : string :=
  String (ascii_of_N (48 + Z.to_N (n mod 10))) EmptyString.

(** The decimal digits of a non-negative rational, to four places. *)
Definition fixed_4 (q : Q) : string :=
  let m := round_half_even (q * 10000) in
  let frac := m mod 10000 in
  (digits (m / 10000) ++ "."
   ++ digit (frac / 1000) ++ digit (frac / 100) ++ digit (frac / 10)
   ++ digit frac)%string.

(** The sign comes from the sign bit, the digits from the exact value of
    the float, rounded to four places. *)
Definition format_4f (v : float) : string :=
  match Prim2SF v with
  | S754_nan => "nan"
  | S754_infinity s => (if s then "-inf" else "inf")
  | S754_zero s => ((if s then "-" else "") ++ "0.0000")
  | S754_finite s _ _ =>
      ((if s then "-" else "") ++ fixed_4 (Qabs (exact v)))
  end%string.

(** ** Motion tracking *)

(** One record of [hands_info]. *)
Record hand_info : Type := HandInfo {
  hi_hand_type : hand_type;
  hi_finger_count : Z;
  hi_palm_showing : bool;
  hi_dorsal_side : bool;
  hi_finger_statuses : list bool;
  hi_motion_status : string;
  hi_landmarks : landmarks
}.

(** [range(lo, hi)] *)
Definition range_from (lo hi : Z) : list Z :=
  map (fun k => lo + Z.of_nat k) (seq 0 (Z.to_nat (hi - lo))).

(** [len(l)] *)
Definition len {A : Type} (l : list A) : Z := Z.of_nat (length l).

(** [sum(l) / len(l) if l else 0] *)
Definition mean_or_zero (l : list float) : float :=
  match l with
  | [] => 0%float
  | _ :: _ => (sum_float l / float_of_int (len l))%float
  end.

(** [[normals[i+1] - normals[i] for i in range(len(normals)-1)]] *)
Definition consecutive_changes (normals : list float) : py (list float) :=
  mapM (fun i => a <- getitem normals (i + 1) ;;
                 b <- getitem normals i ;;
                 Ret (a - b)%float)
       (range_from 0 (len normals - 1)).

Definition flip_direction_of (newest_palm : bool) : string :=
  if negb newest_palm then "Palm to Back" else "Back to Palm".

Definition flip_message (h : hand_type) (flip_direction : string)
  (normal_velocity : float) : string :=
  (label h ++ " Hand flipped: " ++ flip_direction
   ++ " (velocity: " ++ format_4f normal_velocity ++ ")")%string.

Definition flipping_status (flip_direction : string) : string :=
  ("Flipping: " ++ flip_direction)%string.

(** Truth value of [motion_data]: [None] and the empty string are false. *)
Definition truthy (m : option string) : bool :=
  match m with
  | None => false
  | Some EmptyString => false
  | Some (String _ _) => true
  end.

Section Detector.

(** [np.linalg.norm] of a 3-vector. *)
Variable norm : vec3 -> float.

(** *** [detect_flipping_motion] *)
Definition detect_flipping_motion (d : HandDetector) (h : hand_type)
  : py (HandDetector * option string) :=
  if 0 <? get h (flip_cooldown d) then Ret (d, None)
  else
    let history := get h (hand_history d) in
    if len history <? 5 then Ret (d, None)
    else
      oldest <- getitem history 0 ;;
      newest <- getitem history (-1) ;;
      let oldest_palm := d_is_palm_showing oldest in
      let newest_palm := d_is_palm_showing newest in
      let normals := map (fun data => vz (d_normal data)) history in
      normal_changes <- consecutive_changes normals ;;
      let avg_change := mean_or_zero normal_changes in
      if negb (Bool.eqb oldest_palm newest_palm)
         && (abs avg_change >? 0.015)%float
      then
        let normal_velocity := abs avg_change in
        let flip_direction := flip_direction_of newest_palm in
        let d1 := set_status h (flipping_status flip_direction) d in
        let d2 := set_cooldown h cooldown_frames d1 in
        Ret (d2, Some (flip_message h flip_direction normal_velocity))
      else if 3 <=? len history
      then
        wrist_positions <- mapM (fun i => data <- getitem history i ;;
                                          Ret (d_wrist data))
                                (range_from (-3) 0) ;;
        w_last <- getitem wrist_positions (-1) ;;
        w_first <- getitem wrist_positions 0 ;;
        let wrist_movement := norm (vsub w_last w_first) in
        if (wrist_movement >? 0.05)%float
        then Ret (set_status h "Moving" d, None)
        else if (abs avg_change >? 0.01)%float
        then Ret (set_status h "Rotating" d, None)
        else Ret (set_status h "Stable" d, None)
      else Ret (d, None).

(** *** [track_hand_motion] *)
Definition track_hand_motion (d : HandDetector) (hand_landmarks : landmarks)
  (h : hand_type) (is_palm : bool) : py (HandDetector * option string) :=
  wrist <- getitem hand_landmarks 0 ;;
  index_mcp <- getitem hand_landmarks 5 ;;
  pinky_mcp <- getitem hand_landmarks 17 ;;
  middle_tip <- getitem hand_landmarks 12 ;;
  let normal := palm_normal wrist index_mcp pinky_mcp in
  let norm_val := norm normal in
  let normal := if (norm_val >? 0)%float then vscale_inv normal norm_val
                else normal in
  let current_data :=
    Sample (np_array wrist) normal is_palm (np_array middle_tip) in
  let d1 :=
    set_history h (deque_append (get h (hand_history d)) current_data) d in
  if len (get h (hand_history d1)) <? 5 then Ret (d1, None)
  else detect_flipping_motion d1 h.

(** *** [detect_hands] *)

(** Body of the loop over the detected hands.  The block that runs when
    the dorsal side shows only computes pixel coordinates that are never
    used, and is left out. *)
Definition process_hand
  (acc : HandDetector * list hand_info * list string)
  (det : landmarks * hand_type)
  : py (HandDetector * list hand_info * list string) :=
  let '(d, hands_info, motion_messages) := acc in
  let '(hand_landmarks, h) := det in
  ' (extended_fingers, finger_statuses) <- count_fingers hand_landmarks h ;;
  is_palm <- is_palm_showing hand_landmarks h ;;
  let dorsal_side := negb is_palm in
  ' (d1, motion_data) <- track_hand_motion d hand_landmarks h is_palm ;;
  let motion_messages :=
    match motion_data with
    | Some msg => if truthy motion_data then motion_messages ++ [msg]
                  else motion_messages
    | None => motion_messages
    end in
  let info :=
    HandInfo h extended_fingers is_palm dorsal_side finger_statuses
             (get h (hand_motion_status d1)) hand_landmarks in
  Ret (d1, hands_info ++ [info], motion_messages).

Fixpoint process_hands
  (acc : HandDetector * list hand_info * list string)
  (results : list (landmarks * hand_type))
  : py (HandDetector * list hand_info * list string) :=
  match results with
  | [] => Ret acc
  | det :: rest => acc1 <- process_hand acc det ;; process_hands acc1 rest
  end.

(** No hands detected: reset tracking for one hand. *)
Definition reset_hand (d : HandDetector) (h : hand_type) : HandDetector :=
  if 0 <? len (get h (hand_history d))
  then set_status h "Unknown" (set_history h [] d)
  else d.

(** Update the flip cooldown timer of one hand. *)
Definition tick_cooldown (d : HandDetector) (h : hand_type) : HandDetector :=
  if 0 <? get h (flip_cooldown d)
  then set_cooldown h (get h (flip_cooldown d) - 1) d
  else d.

(** One frame.  [results] pairs [results.multi_hand_landmarks] with
    [results.multi_handedness]; the image itself plays no part. *)
Definition detect_hands (d : HandDetector)
  (results : list (landmarks * hand_type))
  : py (HandDetector * list hand_info * list string) :=
  ' (d1, hands_info, motion_messages) <-
    match results with
    | _ :: _ => process_hands (d, [], []) results
    | [] => Ret (fold_left reset_hand [Left; Right] d, [], [])
    end ;;
  let d2 := fold_left tick_cooldown [Left; Right] d1 in
  Ret (d2, hands_info, motion_messages).

(** A run of frames from a state: the state after the last frame and the
    motion messages of each frame, in order. *)
Fixpoint run (d : HandDetector) (frames : list (list (landmarks * hand_type)))
  : py (HandDetector * list (list string)) :=
  match frames with
  | [] => Ret (d, [])
  | f :: rest =>
      ' (d1, _, msgs) <- detect_hands d f ;;
      ' (d2, out) <- run d1 rest ;;
      Ret (d2, msgs :: out)
  end.

End Detector.

(** ** Running the model on examples *)

(** The norm computed the plain way: the square root of the sum of the
    three squares, added from the left.  It stands for the [norm]
    parameter wherever the model is evaluated on a concrete input. *)
Definition plain_norm (v : vec3) : float :=
  PrimFloat.sqrt (vx v * vx v + vy v * vy v + vz v * vz v)%float.

Definition origin : point := Point 0 0 0.

(** The landmark at index [i], for stating properties of a full set. *)
Definition pt (hand_landmarks : landmarks) (i : Z) : point :=
  nth (Z.to_nat i) hand_landmarks origin.

(** A 21-point set with the given wrist (0), thumb IP (3), thumb tip (4),
    index MCP (5) and pinky MCP (17); every other point at the origin. *)
Definition hand_of (wrist ip tip index_mcp pinky_mcp : point) : landmarks :=
  [wrist; origin; origin; ip; tip; index_mcp] ++ repeat origin 11
  ++ [pinky_mcp; origin; origin; origin].

(** ** Vocabulary of the properties *)

(** A hand seen edge-on: wrist, index MCP and pinky MCP lie on one vertical
    line of the image, and the cross product is computed with z = 0. *)
Definition edge_on_hand : landmarks :=
  hand_of (Point 0.5 0.9 0) (Point 0.4 0.8 0) (Point 0.3 0.7 0)
          (Point 0.5 0.6 0) (Point 0.5 0.7 0).


(** A hand whose wrist, index MCP and pinky MCP lie exactly on one slanted
    line of the image. *)
Definition collinear_hand : landmarks :=
  hand_of (Point 0.1 0.1 0) origin origin (Point 0.2 0.4 0)
          (Point 0.3 0.7 0).

(** The same three points, with a thumb whose tip lies left of its IP
    joint. *)
Definition collinear_thumb_hand : landmarks :=
  hand_of (Point 0.1 0.1 0) (Point 0.4 0.8 0) (Point 0.3 0.7 0)
          (Point 0.2 0.4 0) (Point 0.3 0.7 0).


(** Pairwise deltas of a sequence: (n-1) values for n samples. *)
Fixpoint diffs (l : list float) : list float :=
  match l with
  | a :: (b :: _) as t => (b - a)%float :: diffs t
  | _ => []
  end.

Definition sample0 : sample :=
  Sample (Vec3 0 0 0) (Vec3 0 0 0) false (Vec3 0 0 0).

Definition normal_zs (history : list sample) : list float :=
  map (fun data => vz (d_normal data)) history.

(** Mean of the consecutive normal-z differences over the whole window,
    as the code computes it: the differences are added from the left to
    0 and the sum is divided by their number. *)
Definition avg_change_of (history : list sample) : float :=
  mean_or_zero (diffs (normal_zs history)).

Definition oldest_of (history : list sample) : sample := hd sample0 history.
Definition newest_of (history : list sample) : sample := last history sample0.
Definition third_last_of (history : list sample) : sample :=
  nth (length history - 3) history sample0.

(** The two conditions of a flip: palm reversal across the window, and
    the mean normal-z change above 0.015 in absolute value. *)
Definition palm_reversed (history : list sample) : bool :=
  negb (Bool.eqb (d_is_palm_showing (oldest_of history))
                 (d_is_palm_showing (newest_of history))).

Definition flip_condition (history : list sample) : bool :=
  palm_reversed history && (abs (avg_change_of history) >? 0.015)%float.

(** The state and the message of a flip. *)
Definition flipped (d : HandDetector) (h : hand_type)
  : HandDetector * option string :=
  let history := get h (hand_history d) in
  let dir := flip_direction_of (d_is_palm_showing (newest_of history)) in
  (set_cooldown h cooldown_frames (set_status h (flipping_status dir) d),
   Some (flip_message h dir (abs (avg_change_of history)))).

(** A window of samples with a still wrist, given by their normal-z and
    their palm flags. *)
Definition window_of (l : list (float * bool)) : list sample :=
  map (fun zp : float * bool =>
         Sample (Vec3 0 0 0) (Vec3 0 0 (fst zp)) (snd zp) (Vec3 0 0 0)) l.

(** The window of the scenario: palm showing at the oldest sample, back
    showing at the newest, normal-z falling from 0.10 to -0.05. *)
Definition scenario_history : list sample :=
  window_of [(0.10, true); (0.07, true); (0.03, true); (-0.02, false);
             (-0.05, false)]%float.

(** Two windows whose mean change lies next to the flip threshold, on
    either side of it, and one whose mean change is the Rotating
    threshold itself. *)
Definition just_above_window : list sample :=
  window_of [(0.059, true); (-0.91, true); (0.72, true); (-0.42, false);
             (-0.001, false)]%float.

Definition just_below_window : list sample :=
  window_of [(0.02, true); (-0.7, true); (0.3, true); (-0.86, false);
             (-0.04, false)]%float.

Definition threshold_window : list sample :=
  window_of [(0.04, true); (0.04, true); (0.04, true); (0.04, true);
             (0.0, true)]%float.

Definition scenario_state (h : hand_type) : HandDetector :=
  set_history h scenario_history init.


(** A window of five still samples, and one whose wrist has moved. *)
Definition still_sample : sample :=
  Sample (Vec3 0.5 0.5 0) (Vec3 0 0 1) true (Vec3 0.5 0.2 0).

Definition moved_sample : sample :=
  Sample (Vec3 0.58 0.5 0) (Vec3 0 0 1) true (Vec3 0.58 0.2 0).


(** Is [msg] the flip message of hand [h]? *)
Definition is_flip_for (h : hand_type) (msg : string) : bool :=
  prefix (label h ++ " Hand flipped: ") msg.

Definition flip_among (h : hand_type) (msgs : list string) : bool :=
  existsb (is_flip_for h) msgs.

(** What processing one detection of hand [h] does to the state: the
    window of [h] gets one sample, the other hand is untouched, a
    positive cooldown freezes status and cooldown, and a message is a
    flip message of [h] that arms the cooldown. *)
Definition hand_step (h : hand_type) (d d' : HandDetector)
  (r : option string) : Prop :=
  (exists s, get h (hand_history d')
             = deque_append (get h (hand_history d)) s) /\
  (forall k, k <> h ->
     get k (hand_history d') = get k (hand_history d) /\
     get k (hand_motion_status d') = get k (hand_motion_status d) /\
     get k (flip_cooldown d') = get k (flip_cooldown d)) /\
  (0 < get h (flip_cooldown d) ->
     r = None /\
     get h (hand_motion_status d') = get h (hand_motion_status d) /\
     get h (flip_cooldown d') = get h (flip_cooldown d)) /\
  match r with
  | None => get h (flip_cooldown d') = get h (flip_cooldown d)
  | Some msg =>
      (exists dir v, msg = flip_message h dir v) /\
      get h (flip_cooldown d') = cooldown_frames
  end.

(** What a whole frame's loop does to the cooldown and the status of
    hand [h], and which messages it adds. *)
Definition loop_effect (h : hand_type) (d d' : HandDetector)
  (new : list string) : Prop :=
  (0 < get h (flip_cooldown d) ->
     get h (flip_cooldown d') = get h (flip_cooldown d) /\
     get h (hand_motion_status d') = get h (hand_motion_status d) /\
     flip_among h new = false) /\
  (get h (flip_cooldown d) <= 0 ->
     (get h (flip_cooldown d') = get h (flip_cooldown d) /\
      flip_among h new = false) \/
     (get h (flip_cooldown d') = cooldown_frames /\
      flip_among h new = true)).

Definition valid_frame (results : list (landmarks * hand_type)) : Prop :=
  Forall (fun det => length (fst det) = 21%nat) results.

(** A right hand with its palm to the camera, and the same hand turned. *)
Definition palm_hand : landmarks :=
  hand_of (Point 0.5 0.9 0) (Point 0.4 0.8 0) (Point 0.3 0.7 0)
          (Point 0.4 0.6 0) (Point 0.6 0.6 0).

Definition back_hand : landmarks :=
  hand_of (Point 0.5 0.9 0) (Point 0.6 0.8 0) (Point 0.7 0.7 0)
          (Point 0.6 0.6 0) (Point 0.4 0.6 0).

(** Four frames palm up, then the hand turns and stays turned. *)
Definition turning_frames (n : nat) : list (list (landmarks * hand_type)) :=
  repeat [(palm_hand, Right)] 4 ++ repeat [(back_hand, Right)] n.

Definition messages_of (r : py (HandDetector * list (list string)))
  : list (list string) :=
  match r with
  | Ret (_, out) => out
  | IndexError => []
  end.

Definition state_of (r : py (HandDetector * list (list string)))
  : HandDetector :=
  match r with
  | Ret (d, _) => d
  | IndexError => init
  end.


(** Distance between the wrist of the last sample and the wrist of the
    third sample from the end. *)
Definition wrist_movement_of (norm : vec3 -> float) (history : list sample)
  : float :=
  norm (vsub (d_wrist (newest_of history))
             (d_wrist (third_last_of history))).

Definition motion_label (norm : vec3 -> float) (history : list sample)
  : string :=
  if (wrist_movement_of norm history >? 0.05)%float then "Moving"
  else if (abs (avg_change_of history) >? 0.01)%float then "Rotating"
  else "Stable".

(** The sample [track_hand_motion] stores for a full landmark set. *)
Definition current_sample (norm : vec3 -> float) (lm : landmarks)
  (palm : bool) : sample :=
  let normal := palm_normal (pt lm 0) (pt lm 5) (pt lm 17) in
  let norm_val := norm normal in
  Sample (np_array (pt lm 0))
         (if (norm_val >? 0)%float then vscale_inv normal norm_val
          else normal)
         palm
         (np_array (pt lm 12)).

(** ** Vocabulary of the further properties *)

(** The landmark set moved as a whole by the vector [t], each coordinate
    rounded as a float sum is. *)
Definition translated (t : vec3) (lm : landmarks) : landmarks :=
  map (fun p => Point (x p + vx t) (y p + vy t) (z p + vz t)) lm.



(** The other label. *)
Definition swapped (h : hand_type) : hand_type :=
  match h with
  | Left => Right
  | Right => Left
  end.

(** What every record of the loop satisfies. *)
Definition record_ok (info : hand_info) : Prop :=
  hi_dorsal_side info = negb (hi_palm_showing info) /\
  is_palm_showing (hi_landmarks info) (hi_hand_type info)
  = Ret (hi_palm_showing info) /\
  count_fingers (hi_landmarks info) (hi_hand_type info)
  = Ret (hi_finger_count info, hi_finger_statuses info) /\
  length (hi_finger_statuses info) = 5%nat /\
  hi_finger_count info
  = Z.of_nat (count_occ bool_dec (hi_finger_statuses info) true) /\
  0 <= hi_finger_count info <= 5.

(** The six values [hand_motion_status] can hold. *)
Definition allowed_status (s : string) : Prop :=
  s = "Unknown"%string \/ s = "Stable"%string \/ s = "Moving"%string \/
  s = "Rotating"%string \/ s = "Flipping: Palm to Back"%string \/
  s = "Flipping: Back to Palm"%string.

(** The status of hand [h] is one of the six, and is Unknown while the
    window holds fewer than five samples. *)
Definition status_inv (d : HandDetector) (h : hand_type) : Prop :=
  allowed_status (get h (hand_motion_status d)) /\
  (len (get h (hand_history d)) < 5 ->
   get h (hand_motion_status d) = "Unknown"%string).

(** The stored normal of a sample never contradicts its palm flag, read
    by the rule of [is_palm_showing] for hand [h]: with the flag set the
    stored z is not on the other side of 0, and with the flag clear it is
    not on the palm side. *)
Definition sample_consistent (h : hand_type) (s : sample) : Prop :=
  let nz := vz (d_normal s) in
  match h, d_is_palm_showing s with
  | Right, true => (nz <? 0)%float = false
  | Right, false => (nz >? 0)%float = false
  | Left, true => (nz >? 0)%float = false
  | Left, false => (nz <? 0)%float = false
  end.

(** A hand whose cross product has a z so small that dividing it by the
    magnitude, 16, gives zero. *)
Definition faint_hand : landmarks :=
  hand_of origin origin origin (Point 1e-162 4 0) (Point 0 1e-161 4).

Definition hand_eqb (h k : hand_type) : bool :=
  match h, k with
  | Left, Left | Right, Right => true
  | _, _ => false
  end.

(** How often hand [h] is detected in a frame. *)
Definition detections_of (h : hand_type)
  (results : list (landmarks * hand_type)) : nat :=
  length (filter (fun det => hand_eqb (snd det) h) results).

(** ** [main]

    [main] decodes the image, mirrors it, enhances it and builds a new
    [HandDetector] before it calls [detect_hands]; what follows the
    detection is plain list code.  The image steps belong to OpenCV and
    MediaPipe: [results] stands for what the landmark model returns on the
    prepared frame and [timestamp] for [time.strftime("%H:%M:%S")].  The
    function returns the [hands_info] and [motion_log] entries of the
    result dict; the prints are left out. *)
Definition main (norm : vec3 -> float)
  (results : list (landmarks * hand_type))
  (timestamp : string) : py (list hand_info * list string) :=
  let detector := init in
  let motion_log : list string := [] in
  ' (_, hands_info, motion_messages) <- detect_hands norm detector results ;;
  let motion_log :=
    match motion_messages with
    | [] => motion_log
    | _ :: _ =>
        let motion_log :=
          motion_log
          ++ map (fun msg => ("[" ++ timestamp ++ "] " ++ msg)%string)
                 motion_messages in
        if 20 <? len motion_log
        then skipn (length motion_log - 20) motion_log
        else motion_log
    end in
  Ret (hands_info, motion_log).

(** ** [detect_hands_from_landmarks]

    The entry point for landmarks computed elsewhere: points arrive as
    dicts with keys "x", "y" and optionally "z", labels as strings.  Here
    a missing dict key and a label that is no key of the detector's dicts
    raise [KeyError], next to the [IndexError] of a short landmark list. *)

Inductive exn : Type := IndexErr | KeyErr.

Inductive outcome (A : Type) : Type :=
| Returns (a : A)
| Raises (e : exn).

Arguments Returns {A} a.
Arguments Raises {A} e.

Definition obind {A B : Type} (m : outcome A) (k : A -> outcome B)
  : outcome B :=
  match m with
  | Returns a => k a
  | Raises e => Raises e
  end.

(** A call of code that can only raise [IndexError]. *)
Definition lift {A : Type} (m : py A) : outcome A :=
  match m with
  | Ret a => Returns a
  | IndexError => Raises IndexErr
  end.

Fixpoint omapM {A B : Type} (f : A -> outcome B) (l : list A)
  : outcome (list B) :=
  match l with
  | [] => Returns []
  | a :: t => obind (f a) (fun b => obind (omapM f t) (fun bs =>
              Returns (b :: bs)))
  end.

(** A point as the caller passes it: a dict from key to number. *)
Definition point_dict : Type := list (string * float).

(** [p.get(key)]: the first binding of [key]. *)
Fixpoint dict_get (p : point_dict) (key : string) : option float :=
  match p with
  | [] => None
  | (k, v) :: rest => if (k =? key)%string then Some v else dict_get rest key
  end.

(** [p[key]] *)
Definition dict_item (p : point_dict) (key : string) : outcome float :=
  match dict_get p key with
  | Some v => Returns v
  | None => Raises KeyErr
  end.

(** [pt.x, pt.y, pt.z = p["x"], p["y"], p.get("z", 0.0)] *)
Definition to_point (p : point_dict) : outcome point :=
  obind (dict_item p "x") (fun px =>
  obind (dict_item p "y") (fun py_ =>
  Returns (Point px py_ (match dict_get p "z" with
                         | Some v => v
                         | None => 0%float
                         end)))).

(** The key of [hand_history], [hand_motion_status] and [flip_cooldown]
    that a label string is, if it is one. *)
Definition key_of (handed : string) : option hand_type :=
  if (handed =? "Left")%string then Some Left
  else if (handed =? "Right")%string then Some Right
  else None.

(** [is_palm_showing] on a label string: every label other than "Right"
    takes the else branch. *)
Definition is_palm_showing_label (hand_landmarks : landmarks)
  (handed : string) : py bool :=
  if (handed =? "Right")%string
  then is_palm_showing hand_landmarks Right
  else is_palm_showing hand_landmarks Left.

(** [count_fingers] on a label string: every label other than "Left"
    takes the else branch of the thumb rule. *)
Definition count_fingers_label (hand_landmarks : landmarks)
  (handed : string) : py (Z * list bool) :=
  points <- mapM (fun idx => p <- getitem hand_landmarks idx ;;
                             Ret (x p, y p, z p)) (range 21) ;;
  let finger_statuses := repeat false 5 in
  palm_showing <- is_palm_showing_label hand_landmarks handed ;;
  tip <- getitem points thumb_tip ;;
  ip <- getitem points thumb_ip ;;
  let tx := fst (fst tip) in
  let ix := fst (fst ip) in
  st0 <- (if (handed =? "Left")%string
          then setitem finger_statuses 0
                 (if palm_showing then (tx >? ix)%float
                  else (tx <? ix)%float)
          else setitem finger_statuses 0
                 (if palm_showing then (tx <? ix)%float
                  else (tx >? ix)%float)) ;;
  st <- finger_loop points (enumerate finger_tips) st0 ;;
  Ret (sum_bool st, st).

Section Android.

Variable norm : vec3 -> float.

(** [track_hand_motion] on a label string: the four landmarks are read
    first, then [self.hand_history[hand_type]] is looked up. *)
Definition track_hand_motion_label (d : HandDetector)
  (hand_landmarks : landmarks) (handed : string) (is_palm : bool)
  : outcome (HandDetector * option string) :=
  obind (lift (getitem hand_landmarks 0)) (fun _ =>
  obind (lift (getitem hand_landmarks 5)) (fun _ =>
  obind (lift (getitem hand_landmarks 17)) (fun _ =>
  obind (lift (getitem hand_landmarks 12)) (fun _ =>
  match key_of handed with
  | Some h => lift (track_hand_motion norm d hand_landmarks h is_palm)
  | None => Raises KeyErr
  end)))).

(** Body of the loop of [detect_hands_from_landmarks]. *)
Definition android_hand
  (acc : HandDetector * list hand_info * list string)
  (det : list point_dict * string)
  : outcome (HandDetector * list hand_info * list string) :=
  let '(d, hands_info, motion_messages) := acc in
  let '(hand_landmarks, handed) := det in
  obind (omapM to_point hand_landmarks) (fun hl =>
  obind (lift (count_fingers_label hl handed)) (fun cf =>
  let '(extended_fingers, finger_statuses) := cf in
  obind (lift (is_palm_showing_label hl handed)) (fun is_palm =>
  let dorsal_side := negb is_palm in
  obind (track_hand_motion_label d hl handed is_palm) (fun tr =>
  let '(d1, motion_data) := tr in
  let motion_messages :=
    match motion_data with
    | Some msg => if truthy motion_data then motion_messages ++ [msg]
                  else motion_messages
    | None => motion_messages
    end in
  match key_of handed with
  | Some h =>
      Returns (d1,
               hands_info
               ++ [HandInfo h extended_fingers is_palm dorsal_side
                            finger_statuses (get h (hand_motion_status d1))
                            hl],
               motion_messages)
  | None => Raises KeyErr
  end)))).

Fixpoint android_hands
  (acc : HandDetector * list hand_info * list string)
  (dets : list (list point_dict * string))
  : outcome (HandDetector * list hand_info * list string) :=
  match dets with
  | [] => Returns acc
  | det :: rest => obind (android_hand acc det) (fun acc1 =>
                   android_hands acc1 rest)
  end.

(** [zip] pairs the two lists up to the shorter one.  No window is
    cleared and no cooldown is counted down here. *)
Definition detect_hands_from_landmarks (d : HandDetector)
  (multi_hand_landmarks : list (list point_dict))
  (multi_handedness : list string)
  : outcome (HandDetector * list hand_info * list string) :=
  android_hands (d, [], []) (combine multi_hand_landmarks multi_handedness).

(** A run of frames through [detect_hands_from_landmarks]. *)
Fixpoint run_from_landmarks (d : HandDetector)
  (frames : list (list (list point_dict) * list string))
  : outcome (HandDetector * list (list string)) :=
  match frames with
  | [] => Returns (d, [])
  | (lms, labels) :: rest =>
      obind (detect_hands_from_landmarks d lms labels) (fun r =>
      let '(d1, _, msgs) := r in
      obind (run_from_landmarks d1 rest) (fun r2 =>
      let '(d2, out) := r2 in
      Returns (d2, msgs :: out)))
  end.

End Android.

(** The dict of a point with all three keys. *)
Definition dict_of_point (p : point) : point_dict :=
  [("x"%string, x p); ("y"%string, y p); ("z"%string, z p)].

(** A 21-point set as the caller of [detect_hands_from_landmarks] passes
    it, and the same with the "z" key left out of every point. *)
Definition dicts_of (lm : landmarks) : list point_dict :=
  map dict_of_point lm.

Definition flat_dicts_of (lm : landmarks) : list point_dict :=
  map (fun p => [("x"%string, x p); ("y"%string, y p)]) lm.

(** The turning hand of [turning_frames], passed as dicts and labels. *)
Definition turning_calls (n : nat)
  : list (list (list point_dict) * list string) :=
  repeat ([dicts_of palm_hand], ["Right"%string]) 4
  ++ repeat ([dicts_of back_hand], ["Right"%string]) n.

Definition outcome_messages
  (r : outcome (HandDetector * list (list string))) : list (list string) :=
  match r with
  | Returns (_, out) => out
  | Raises _ => []
  end.

(** * Properties *)

(** ** Floats *)

Lemma ltb_lt (a b : float) : (a <? b)%float = true <-> (a < b)%float.
Proof. reflexivity. Qed.

Lemma gtb_gt (a b : float) : (a >? b)%float = true <-> (a > b)%float.
Proof. reflexivity. Qed.

Lemma Prim2SF_zero : Prim2SF 0%float = S754_zero false.
Proof. reflexivity. Qed.

(** How a float compares with 0, read off its sign bit. *)
Lemma ltb_zero_r (v : float) :
  (v <? 0)%float = match Prim2SF v with
                   | S754_infinity s | S754_finite s _ _ => s
                   | _ => false
                   end.
Proof.
  rewrite FloatAxioms.ltb_spec, Prim2SF_zero.
  destruct (Prim2SF v) as [s|s| |s m e]; try destruct s; reflexivity.
Qed.

Lemma ltb_zero_l (v : float) :
  (0 <? v)%float = match Prim2SF v with
                   | S754_infinity s | S754_finite s _ _ => negb s
                   | _ => false
                   end.
Proof.
  rewrite FloatAxioms.ltb_spec, Prim2SF_zero.
  destruct (Prim2SF v) as [s|s| |s m e]; try destruct s; reflexivity.
Qed.

Lemma eqb_zero (v : float) :
  (v =? 0)%float = match Prim2SF v with
                   | S754_zero _ => true
                   | _ => false
                   end.
Proof.
  rewrite FloatAxioms.eqb_spec, Prim2SF_zero.
  destruct (Prim2SF v) as [s|s| |s m e]; try destruct s; reflexivity.
Qed.

Lemma eqb_self (v : float) :
  (v =? v)%float = match Prim2SF v with
                   | S754_nan => false
                   | _ => true
                   end.
Proof.
  rewrite FloatAxioms.eqb_spec.
  destruct (Prim2SF v) as [s|s| |s m e]; try destruct s; try reflexivity;
    unfold SFeqb, SFcompare;
    rewrite Z.compare_refl, Pos.compare_cont_refl; reflexivity.
Qed.

(** A number other than zero lies on exactly one side of 0; a zero and NaN
    lie on neither. *)
Lemma sign_cases (v : float) :
  (~ is_zero v -> ~ is_nan v -> (v <? 0)%float = negb (v >? 0)%float) /\
  (is_zero v \/ is_nan v ->
   (v <? 0)%float = false /\ (v >? 0)%float = false).
Proof.
  unfold is_zero, is_nan, gtb.
  rewrite ltb_zero_r, ltb_zero_l, eqb_zero, eqb_self.
  destruct (Prim2SF v) as [s|s| |s m e]; try destruct s; cbn; split;
    intros; try tauto; try (exfalso; tauto);
    try (destruct H; discriminate); intuition congruence.
Qed.

Lemma sub_diag (v : float) : zero_or_nan (v - v)%float.
Proof.
  unfold zero_or_nan. rewrite FloatAxioms.sub_spec.
  destruct (Prim2SF v) as [s|s| |s m e].
  - destruct s; cbn; eauto.
  - destruct s; cbn; eauto.
  - cbn; eauto.
  - unfold SF64sub, SFsub. cbv zeta. rewrite Z.sub_diag. cbn. eauto.
Qed.

Lemma add_zero_or_nan (a b : float) :
  zero_or_nan a -> zero_or_nan b -> zero_or_nan (a + b)%float.
Proof.
  unfold zero_or_nan. rewrite FloatAxioms.add_spec.
  intros [-> | [s ->]] [-> | [t ->]]; cbn; eauto.
  destruct s, t; cbn; eauto.
Qed.

Lemma div_zero_or_nan (a b : float) :
  zero_or_nan a -> zero_or_nan (a / b)%float.
Proof.
  unfold zero_or_nan. rewrite FloatAxioms.div_spec.
  intros [-> | [s ->]]; cbn; eauto.
  destruct (Prim2SF b); cbn; eauto.
Qed.

Lemma abs_zero_or_nan (a : float) : zero_or_nan a -> zero_or_nan (abs a).
Proof.
  unfold zero_or_nan. rewrite FloatAxioms.abs_spec.
  intros [-> | [s ->]]; cbn; eauto.
Qed.

(** Neither a zero nor NaN exceeds a positive number. *)
Lemma gtb_zero_or_nan (a c : float) :
  (0 <? c)%float = true -> zero_or_nan a -> (a >? c)%float = false.
Proof.
  unfold gtb. rewrite ltb_zero_l, FloatAxioms.ltb_spec.
  intros Hc [-> | [s ->]].
  - destruct (Prim2SF c); reflexivity.
  - destruct (Prim2SF c) as [t|t| |t m e]; try discriminate;
      destruct t; try discriminate; reflexivity.
Qed.

(** Rounding keeps the sign it is given. *)
Lemma binary_round_aux_sign (prec emax : Z) (s : bool) (m e : Z)
  (l : SpecFloat.location) :
  match SpecFloat.binary_round_aux prec emax s m e l with
  | S754_zero s' | S754_infinity s' | S754_finite s' _ _ => s' = s
  | S754_nan => True
  end.
Proof.
  unfold SpecFloat.binary_round_aux.
  destruct (shr_fexp prec emax m e l) as [mrs' e'].
  destruct (shr_fexp _ _ _ _ _) as [mrs'' e''].
  destruct (shr_m mrs''); auto.
  destruct (_ <=? _)%Z; auto.
Qed.

(** Dividing by a positive number never moves a number across 0. *)
Lemma div_pos_sign (v n : float) :
  (n >? 0)%float = true ->
  ((v / n >? 0)%float = true -> (v >? 0)%float = true) /\
  ((v / n <? 0)%float = true -> (v <? 0)%float = true).
Proof.
  unfold gtb.
  rewrite !ltb_zero_l, !ltb_zero_r, FloatAxioms.div_spec.
  unfold SF64div, SFdiv.
  destruct (Prim2SF n) as [t|t| |t mn en]; try discriminate;
    destruct t; try discriminate; intros _.
  - destruct (Prim2SF v) as [s|s| |s m e]; cbn; split; try discriminate; auto.
  - destruct (Prim2SF v) as [s|s| |s m e]; cbn; split; try discriminate; auto;
      try (destruct s; cbn; auto; discriminate);
      destruct (SFdiv_core_binary _ _ _ _ _ _) as [[mz ez] lz];
      pose proof (binary_round_aux_sign prec emax (xorb s false) mz ez lz)
        as H;
      destruct (SpecFloat.binary_round_aux _ _ _ _ _ _); try discriminate;
      subst; destruct s; cbn; auto.
Qed.

(** ** Indexing *)

Lemma getitem_nth {A : Type} (l : list A) (i : Z) (a : A) :
  0 <= i -> nth_error l (Z.to_nat i) = Some a -> getitem l i = Ret a.
Proof.
  intros Hi Hn. unfold getitem.
  assert (Hlt : (Z.to_nat i < length l)%nat).
  { apply nth_error_Some. congruence. }
  destruct (i <? 0) eqn:E; [apply Z.ltb_lt in E; lia|].
  replace ((0 <=? i) && (i <? Z.of_nat (length l))) with true.
  - now rewrite Hn.
  - symmetry. apply andb_true_iff. split; [apply Z.leb_le|apply Z.ltb_lt]; lia.
Qed.

Lemma getitem_last {A : Type} (l : list A) (a : A) :
  getitem (l ++ [a]) (-1) = Ret a.
Proof.
  unfold getitem. rewrite length_app. cbn [length].
  replace (-1 <? 0) with true by reflexivity.
  replace (-1 + Z.of_nat (length l + 1)) with (Z.of_nat (length l)) by lia.
  replace ((0 <=? Z.of_nat (length l))
           && (Z.of_nat (length l) <? Z.of_nat (length l + 1))) with true.
  - rewrite Nat2Z.id, nth_error_app2, Nat.sub_diag by lia. reflexivity.
  - symmetry. apply andb_true_iff. split; [apply Z.leb_le|apply Z.ltb_lt]; lia.
Qed.

(** Splits a landmark list known to hold 21 points into its points. *)
Ltac split_landmarks lm H :=
  do 21 (destruct lm as [|? lm]; [discriminate H|]);
  destruct lm; [clear H|discriminate H].

Lemma sum_bool_from (l : list bool) (acc : Z) :
  fold_left (fun a (b : bool) => a + (if b then 1 else 0)) l acc
  = acc + Z.of_nat (count_occ bool_dec l true).
Proof.
  revert acc. induction l as [|b l IH]; intros acc; cbn [fold_left count_occ].
  - lia.
  - rewrite IH. destruct b; destruct (bool_dec _ _); try congruence; lia.
Qed.

Lemma sum_bool_count (l : list bool) :
  sum_bool l = Z.of_nat (count_occ bool_dec l true).
Proof. unfold sum_bool. now rewrite sum_bool_from. Qed.

(** ** The finger classifier *)

(** What [count_fingers] returns on a full landmark set. *)
Lemma count_fingers_eq (lm : landmarks) (h : hand_type) :
  length lm = 21%nat ->
  exists palm, is_palm_showing lm h = Ret palm /\
  let thumb :=
    match h, palm with
    | Left, true => (x (pt lm 4) >? x (pt lm 3))%float
    | Left, false => (x (pt lm 4) <? x (pt lm 3))%float
    | Right, true => (x (pt lm 4) <? x (pt lm 3))%float
    | Right, false => (x (pt lm 4) >? x (pt lm 3))%float
    end in
  let st := [thumb;
             (y (pt lm 8) <? y (pt lm 6))%float;
             (y (pt lm 12) <? y (pt lm 10))%float;
             (y (pt lm 16) <? y (pt lm 14))%float;
             (y (pt lm 20) <? y (pt lm 18))%float] in
  count_fingers lm h = Ret (sum_bool st, st).
Proof.
  intros H. split_landmarks lm H.
  destruct h; eexists; (split; [reflexivity|reflexivity]).
Qed.

Lemma is_palm_showing_eq (lm : landmarks) (h : hand_type) :
  length lm = 21%nat ->
  is_palm_showing lm h =
  Ret (match h with
       | Right => (vz (palm_normal (pt lm 0) (pt lm 5) (pt lm 17)) >? 0)%float
       | Left => (vz (palm_normal (pt lm 0) (pt lm 5) (pt lm 17)) <? 0)%float
       end).
Proof.
  intros H. split_landmarks lm H. destruct h; reflexivity.
Qed.

(** C4. On every 21-point landmark set the thumb entry of the status list
    follows the four-way table: Left hand, palm showing: tip x > IP x;
    Left hand, dorsal side: tip x < IP x; Right hand, palm showing:
    tip x < IP x; Right hand, dorsal side: tip x > IP x; where palm or
    dorsal is what [is_palm_showing] answers. *)
Theorem thumb_four_way_table (lm : landmarks) (h : hand_type) :
  length lm = 21%nat ->
  exists palm n st thumb,
    is_palm_showing lm h = Ret palm /\
    count_fingers lm h = Ret (n, st) /\
    nth_error st 0 = Some thumb /\
    (thumb = true <->
     match h, palm with
     | Left, true => (x (pt lm 4) > x (pt lm 3))%float
     | Left, false => (x (pt lm 4) < x (pt lm 3))%float
     | Right, true => (x (pt lm 4) < x (pt lm 3))%float
     | Right, false => (x (pt lm 4) > x (pt lm 3))%float
     end).
Proof.
  intros H. destruct (count_fingers_eq lm h H) as [palm [Hp Hc]].
  cbv zeta in Hc.
  exists palm. do 3 eexists.
  split; [exact Hp|]. split; [exact Hc|]. split; [reflexivity|].
  destruct h, palm; first [apply ltb_lt | apply gtb_gt].
Qed.


(** ** The orientation test *)

(** On the edge-on hand the answer is [False] under both labels: swapping
    the label does not flip it. *)
Lemma swap_label_same_answer :
  length edge_on_hand = 21%nat /\
  is_palm_showing edge_on_hand Left = Ret false /\
  is_palm_showing edge_on_hand Right = Ret false.
Proof. repeat split. Qed.

(** On a hand whose three points are exactly collinear but not computed
    so, the swap does flip the answer. *)
Example collinear_hand_swap_flips :
  vz (palm_normal (pt collinear_hand 0) (pt collinear_hand 5)
                  (pt collinear_hand 17)) = (-6.9388939039072284e-18)%float /\
  is_palm_showing collinear_hand Left = Ret true /\
  is_palm_showing collinear_hand Right = Ret false.
Proof. repeat split. Qed.

(** C6, amended. On every 21-point landmark set the Right hand shows its
    palm exactly when the z the code computes for the cross product is
    positive and the Left hand exactly when it is negative; swapping only
    the label flips the answer whenever that computed z is a number other
    than zero, and when it is a zero (or NaN) the answer is [False] under
    both labels. *)
Theorem palm_showing_swap_label (lm : landmarks) :
  length lm = 21%nat ->
  let nz := vz (palm_normal (pt lm 0) (pt lm 5) (pt lm 17)) in
  exists palm_l palm_r,
    is_palm_showing lm Left = Ret palm_l /\
    is_palm_showing lm Right = Ret palm_r /\
    (palm_r = true <-> (nz > 0)%float) /\
    (palm_l = true <-> (nz < 0)%float) /\
    (~ is_zero nz -> ~ is_nan nz -> palm_l = negb palm_r) /\
    (is_zero nz \/ is_nan nz -> palm_l = false /\ palm_r = false).
Proof.
  intros H nz.
  exists (nz <? 0)%float, (nz >? 0)%float.
  split; [apply (is_palm_showing_eq lm Left H)|].
  split; [apply (is_palm_showing_eq lm Right H)|].
  split; [apply gtb_gt|]. split; [apply ltb_lt|].
  apply sign_cases.
Qed.

Lemma palm_showing_swap_label_witness :
  exists palm_l palm_r,
    is_palm_showing (hand_of origin origin origin (Point 1 0 0) (Point 0 1 0))
                    Left = Ret palm_l /\
    is_palm_showing (hand_of origin origin origin (Point 1 0 0) (Point 0 1 0))
                    Right = Ret palm_r /\
    palm_l = negb palm_r.
Proof.
  destruct (palm_showing_swap_label
              (hand_of origin origin origin (Point 1 0 0) (Point 0 1 0))
              eq_refl) as [pl [pr [Hl [Hr [_ [_ [Hne _]]]]]]].
  exists pl, pr. split; [exact Hl|]. split; [exact Hr|].
  apply Hne; vm_compute; discriminate.
Defined.

Lemma thumb_four_way_table_witness :
  exists palm n st thumb,
    is_palm_showing edge_on_hand Right = Ret palm /\
    count_fingers edge_on_hand Right = Ret (n, st) /\
    nth_error st 0 = Some thumb /\
    (thumb = true <->
     match palm with
     | true => (x (pt edge_on_hand 4) < x (pt edge_on_hand 3))%float
     | false => (x (pt edge_on_hand 4) > x (pt edge_on_hand 3))%float
     end).
Proof. exact (thumb_four_way_table edge_on_hand Right eq_refl). Defined.


(** ** The flip and motion evaluation *)

Lemma length_diffs (l : list float) : length (diffs l) = (length l - 1)%nat.
Proof.
  induction l as [|a [|b t] IH]; try reflexivity.
  change (diffs (a :: b :: t)) with ((b - a)%float :: diffs (b :: t)).
  cbn [length] in *. lia.
Qed.

Lemma consecutive_changes_from (pre l : list float) :
  mapM (fun i => a <- getitem (pre ++ l) (i + 1) ;;
                 b <- getitem (pre ++ l) i ;;
                 Ret (a - b)%float)
       (map (fun k => 0 + Z.of_nat k) (seq (length pre) (length l - 1)))
  = Ret (diffs l).
Proof.
  revert pre. induction l as [|a [|b t] IH]; intros pre; try reflexivity.
  change (diffs (a :: b :: t)) with ((b - a)%float :: diffs (b :: t)).
  replace (length (a :: b :: t) - 1)%nat with (S (length t))
    by (cbn [length]; lia).
  cbn [seq map mapM].
  rewrite (getitem_nth _ _ b); [|lia|].
  2:{ replace (Z.to_nat (0 + Z.of_nat (length pre) + 1))
        with (length pre + 1)%nat by lia.
      rewrite nth_error_app2 by lia.
      replace (length pre + 1 - length pre)%nat with 1%nat by lia.
      reflexivity. }
  rewrite (getitem_nth _ _ a); [|lia|].
  2:{ replace (Z.to_nat (0 + Z.of_nat (length pre))) with (length pre) by lia.
      rewrite nth_error_app2, Nat.sub_diag by lia. reflexivity. }
  cbn [bind].
  specialize (IH (pre ++ [a])).
  rewrite <- app_assoc in IH. cbn [app] in IH.
  rewrite length_app in IH.
  replace (length pre + length [a])%nat with (S (length pre)) in IH
    by (cbn [length]; lia).
  replace (length (b :: t) - 1)%nat with (length t) in IH
    by (cbn [length]; lia).
  rewrite IH. reflexivity.
Qed.

Lemma consecutive_changes_eq (l : list float) :
  consecutive_changes l = Ret (diffs l).
Proof.
  unfold consecutive_changes, range_from, len.
  replace (Z.to_nat (Z.of_nat (length l) - 1 - 0)) with (length l - 1)%nat
    by lia.
  apply (consecutive_changes_from [] l).
Qed.

Lemma getitem_first {A : Type} (l : list A) (d : A) :
  l <> [] -> getitem l 0 = Ret (hd d l).
Proof.
  destruct l as [|a l]; [congruence|]. intros _.
  apply getitem_nth; [lia|reflexivity].
Qed.

Lemma getitem_newest {A : Type} (l : list A) (d : A) :
  l <> [] -> getitem l (-1) = Ret (last l d).
Proof.
  intros Hl. rewrite (app_removelast_last d Hl) at 1. apply getitem_last.
Qed.

Lemma getitem_from_end {A : Type} (l : list A) (d : A) (k : nat) :
  (0 < k <= length l)%nat ->
  getitem l (- Z.of_nat k) = Ret (nth (length l - k) l d).
Proof.
  intros Hk. unfold getitem.
  replace (- Z.of_nat k <? 0) with true by (symmetry; apply Z.ltb_lt; lia).
  replace (- Z.of_nat k + Z.of_nat (length l))
    with (Z.of_nat (length l - k)) by lia.
  replace ((0 <=? Z.of_nat (length l - k))
           && (Z.of_nat (length l - k) <? Z.of_nat (length l))) with true.
  - rewrite Nat2Z.id.
    rewrite (nth_error_nth' l d) by lia. reflexivity.
  - symmetry. apply andb_true_iff. split; [apply Z.leb_le|apply Z.ltb_lt]; lia.
Qed.

Lemma last_nth {A : Type} (l : list A) (d : A) :
  last l d = nth (length l - 1) l d.
Proof.
  induction l as [|a [|b t] IH]; try reflexivity.
  change (last (a :: b :: t) d) with (last (b :: t) d). rewrite IH.
  cbn [length]. replace (S (S (length t)) - 1)%nat with (S (length t)) by lia.
  cbn [nth]. replace (S (length t) - 1)%nat with (length t) by lia.
  reflexivity.
Qed.

Section Evaluation.

Variable norm : vec3 -> float.

Lemma wrist_positions_eq (history : list sample) :
  (3 <= length history)%nat ->
  mapM (fun i => data <- getitem history i ;; Ret (d_wrist data))
       (range_from (-3) 0)
  = Ret [d_wrist (third_last_of history);
         d_wrist (nth (length history - 2) history sample0);
         d_wrist (newest_of history)].
Proof.
  intros H.
  change (range_from (-3) 0)
    with [- Z.of_nat 3; - Z.of_nat 2; - Z.of_nat 1].
  cbn [mapM].
  rewrite !(getitem_from_end history sample0) by lia.
  cbn [bind]. unfold third_last_of, newest_of. rewrite last_nth.
  reflexivity.
Qed.

(** What the evaluation does once it is past both guards. *)
Lemma detect_flipping_motion_eq (d : HandDetector) (h : hand_type) :
  get h (flip_cooldown d) <= 0 ->
  5 <= len (get h (hand_history d)) ->
  detect_flipping_motion norm d h =
  Ret (if flip_condition (get h (hand_history d))
       then flipped d h
       else (set_status h (motion_label norm (get h (hand_history d))) d,
          None)).
Proof.
  intros Hcd Hlen. unfold detect_flipping_motion.
  replace (0 <? get h (flip_cooldown d)) with false
    by (symmetry; apply Z.ltb_ge; exact Hcd).
  set (history := get h (hand_history d)) in *.
  replace (len history <? 5) with false
    by (symmetry; apply Z.ltb_ge; exact Hlen).
  unfold len in Hlen.
  assert (Hne : history <> []) by (destruct history; cbn in *; [lia|congruence]).
  rewrite (getitem_first history sample0 Hne).
  rewrite (getitem_newest history sample0 Hne).
  cbn [bind]. rewrite consecutive_changes_eq. cbn [bind].
  fold (normal_zs history). fold (avg_change_of history).
  fold (oldest_of history). fold (newest_of history).
  fold (palm_reversed history). fold (flip_condition history).
  destruct (flip_condition history); [reflexivity|].
  replace (3 <=? len history) with true
    by (symmetry; apply Z.leb_le; unfold len; lia).
  rewrite wrist_positions_eq by lia. cbn [bind].
  change (getitem [d_wrist (third_last_of history);
                   d_wrist (nth (length history - 2) history sample0);
                   d_wrist (newest_of history)] (-1))
    with (Ret (d_wrist (newest_of history))).
  change (getitem [d_wrist (third_last_of history);
                   d_wrist (nth (length history - 2) history sample0);
                   d_wrist (newest_of history)] 0)
    with (Ret (d_wrist (third_last_of history))).
  cbn [bind]. fold (wrist_movement_of norm history).
  unfold motion_label.
  destruct (wrist_movement_of norm history >? 0.05)%float; [reflexivity|].
  destruct (abs (avg_change_of history) >? 0.01)%float; reflexivity.
Qed.

(** A positive cooldown blocks the evaluation. *)
Lemma detect_flipping_motion_blocked (d : HandDetector) (h : hand_type) :
  0 < get h (flip_cooldown d) ->
  detect_flipping_motion norm d h = Ret (d, None).
Proof.
  intros H. unfold detect_flipping_motion.
  replace (0 <? get h (flip_cooldown d)) with true
    by (symmetry; apply Z.ltb_lt; exact H).
  reflexivity.
Qed.

(** Fewer than five samples: nothing happens either. *)
Lemma detect_flipping_motion_short (d : HandDetector) (h : hand_type) :
  len (get h (hand_history d)) < 5 ->
  detect_flipping_motion norm d h = Ret (d, None).
Proof.
  intros H. unfold detect_flipping_motion.
  destruct (0 <? get h (flip_cooldown d)); [reflexivity|].
  replace (len (get h (hand_history d)) <? 5) with true
    by (symmetry; apply Z.ltb_lt; exact H).
  reflexivity.
Qed.

End Evaluation.

(** ** Access to the per-hand slots *)

Lemma get_set_same {A : Type} (h : hand_type) (v : A) (m : per_hand A) :
  get h (set h v m) = v.
Proof. destruct h; reflexivity. Qed.

Lemma get_set_other {A : Type} (h k : hand_type) (v : A) (m : per_hand A) :
  h <> k -> get h (set k v m) = get h m.
Proof. destruct h, k; intros H; try reflexivity; congruence. Qed.

(** ** A window whose normal-z values are all equal *)

Lemma diffs_constant (l : list float) (c : float) :
  Forall (fun v => v = c) l -> Forall zero_or_nan (diffs l).
Proof.
  induction l as [|a [|b t] IH]; intros Hall; try constructor.
  - inversion Hall as [|? ? Ha Ht]; subst.
    inversion Ht as [|? ? Hb _]; subst. apply sub_diag.
  - apply IH. inversion Hall; assumption.
Qed.

Lemma sum_zero_or_nan (l : list float) (acc : float) :
  zero_or_nan acc -> Forall zero_or_nan l ->
  zero_or_nan (fold_left PrimFloat.add l acc).
Proof.
  revert acc. induction l as [|a l IH]; intros acc Hacc Hall; [exact Hacc|].
  inversion Hall; subst. cbn [fold_left].
  apply IH; [apply add_zero_or_nan|]; assumption.
Qed.

Lemma zero_or_nan_zero : zero_or_nan 0%float.
Proof. right. exists false. reflexivity. Qed.

(** With every value equal to [c] the mean change is a zero or NaN. *)
Lemma mean_diffs_constant (l : list float) (c : float) :
  Forall (fun v => v = c) l -> zero_or_nan (mean_or_zero (diffs l)).
Proof.
  intros Hall. apply diffs_constant in Hall.
  unfold mean_or_zero. destruct (diffs l) as [|e es];
    [apply zero_or_nan_zero|].
  apply div_zero_or_nan. apply sum_zero_or_nan;
    [apply zero_or_nan_zero|exact Hall].
Qed.

(** ** Flip detection *)

(** On the window of the scenario the mean change the code computes is
    not -0.0375: it is the float next to it, a little further from 0. *)
Lemma scenario_mean_is_rounded :
  normal_zs scenario_history = [0.10; 0.07; 0.03; -0.02; -0.05]%float /\
  avg_change_of scenario_history <> (-0.0375)%float /\
  (exact (avg_change_of scenario_history) < -0.0375)%Q.
Proof.
  split; [reflexivity|]. split; [|reflexivity].
  intros H. apply (f_equal Prim2SF) in H. vm_compute in H. discriminate H.
Qed.

(** The comparison with 0.015 is made on the mean as the floats give it:
    -0.015000000000000027 on the first window, which flips, and
    -0.014999999999999986 on the second, which does not. *)
Example rounded_mean_decides :
  avg_change_of just_above_window = (-0.015000000000000027)%float /\
  flip_condition just_above_window = true /\
  avg_change_of just_below_window = (-0.014999999999999986)%float /\
  flip_condition just_below_window = false.
Proof. repeat split. Qed.

(** C2, amended. With cooldown 0 and at least 5 samples in the window, the
    evaluation emits a flip message exactly when the palm state of the
    oldest and the newest sample differ and the mean of the consecutive
    normal-z differences, as the code computes it, exceeds 0.015 in
    absolute value.  A window whose normal-z values are all equal emits
    nothing, whatever the palm states.  On the window with normal-z
    [0.10, 0.07, 0.03, -0.02, -0.05] that goes from palm to back the mean
    change is -0.037500000000000006, which is -0.0375 to within 1e-17,
    the message is "<Id> Hand flipped: Palm to Back (velocity: 0.0375)"
    and the cooldown becomes 15. *)
Theorem flip_emitted_iff (norm : vec3 -> float) (d : HandDetector)
  (h : hand_type) :
  get h (flip_cooldown d) = 0 ->
  5 <= len (get h (hand_history d)) ->
  let history := get h (hand_history d) in
  let avg_change := avg_change_of history in
  exists d' r,
    detect_flipping_motion norm d h = Ret (d', r) /\
    ((exists msg, r = Some msg) <->
     d_is_palm_showing (oldest_of history)
       <> d_is_palm_showing (newest_of history)
     /\ (abs avg_change > 0.015)%float) /\
    (forall msg, r = Some msg ->
       let dir := (if d_is_palm_showing (newest_of history)
                   then "Back to Palm" else "Palm to Back")%string in
       msg = (label h ++ " Hand flipped: " ++ dir ++ " (velocity: "
              ++ format_4f (abs avg_change) ++ ")")%string /\
       get h (hand_motion_status d') = ("Flipping: " ++ dir)%string /\
       get h (flip_cooldown d') = 15) /\
    ((exists c, Forall (fun v => v = c) (normal_zs history)) ->
     r = None) /\
    (normal_zs history = [0.10; 0.07; 0.03; -0.02; -0.05]%float ->
     d_is_palm_showing (oldest_of history) = true ->
     d_is_palm_showing (newest_of history) = false ->
     avg_change = (-0.037500000000000006)%float /\
     (Qabs (exact avg_change - -0.0375) < 1 # 10 ^ 17)%Q /\
     r = Some (label h
               ++ " Hand flipped: Palm to Back (velocity: 0.0375)")%string /\
     get h (flip_cooldown d') = 15).
Proof.
  intros Hcd Hlen history avg_change.
  rewrite (detect_flipping_motion_eq norm d h) by lia.
  fold history.
  assert (Hcond : flip_condition history = true <->
                  d_is_palm_showing (oldest_of history)
                    <> d_is_palm_showing (newest_of history)
                  /\ (abs avg_change > 0.015)%float).
  { unfold flip_condition, palm_reversed. rewrite andb_true_iff.
    rewrite gtb_gt. fold avg_change.
    destruct (d_is_palm_showing (oldest_of history)),
             (d_is_palm_showing (newest_of history)); cbn;
      intuition congruence. }
  destruct (flip_condition history) eqn:Hf.
  - (* a flip *)
    unfold flipped. fold history. do 2 eexists. split; [reflexivity|].
    split; [split; [intros _; apply Hcond; reflexivity|intros _; eauto]|].
    split.
    { intros msg Hmsg. injection Hmsg as <-. cbv zeta.
      split; [|split].
      - unfold flip_message, flip_direction_of.
        destruct (d_is_palm_showing (newest_of history)); reflexivity.
      - cbn [hand_motion_status set_cooldown set_status].
        rewrite get_set_same. unfold flipping_status, flip_direction_of.
        destruct (d_is_palm_showing (newest_of history)); reflexivity.
      - cbn [flip_cooldown set_cooldown]. apply get_set_same. }
    split.
    { intros [c Hc]. exfalso.
      apply (mean_diffs_constant _ c) in Hc.
      unfold flip_condition in Hf. apply andb_true_iff in Hf.
      destruct Hf as [_ Hf]. unfold avg_change_of in Hf.
      rewrite (gtb_zero_or_nan _ 0.015 eq_refl (abs_zero_or_nan _ Hc)) in Hf.
      discriminate. }
    intros Hzs Ho Hn. split; [|split; [|split]].
    + unfold avg_change, avg_change_of. rewrite Hzs. reflexivity.
    + unfold avg_change, avg_change_of. rewrite Hzs. reflexivity.
    + unfold flip_message, avg_change_of. rewrite Hzs, Hn.
      destruct h; reflexivity.
    + cbn [flip_cooldown set_cooldown]. apply get_set_same.
  - (* no flip *)
    do 2 eexists. split; [reflexivity|].
    split.
    { split; [intros [msg Hmsg]; discriminate|].
      intros Hc. apply Hcond in Hc. discriminate. }
    split; [intros msg Hmsg; discriminate|].
    split; [reflexivity|].
    intros Hzs Ho Hn. exfalso.
    unfold flip_condition, palm_reversed, avg_change_of in Hf.
    rewrite Hzs, Ho, Hn in Hf. discriminate Hf.
Qed.

Lemma flip_emitted_iff_witness :
  exists d',
    detect_flipping_motion plain_norm (scenario_state Right) Right
    = Ret (d', Some "Right Hand flipped: Palm to Back (velocity: 0.0375)"
                    %string)
    /\ get Right (flip_cooldown d') = 15.
Proof.
  destruct (flip_emitted_iff plain_norm (scenario_state Right) Right
              eq_refl ltac:(discriminate))
    as [d' [r [Hrun [_ [_ [_ Hsc]]]]]].
  destruct (Hsc eq_refl eq_refl eq_refl) as [_ [_ [Hr Hc]]].
  exists d'. subst r. split; [exact Hrun|exact Hc].
Defined.

(** ** Motion classification *)

(** A mean change of exactly the threshold does not exceed it: with a
    still wrist the window is Stable, not Rotating. *)
Example mean_at_threshold_is_stable :
  abs (avg_change_of threshold_window) = 0.01%float /\
  exists d',
    detect_flipping_motion plain_norm (set_history Left threshold_window init)
                           Left = Ret (d', None) /\
    get Left (hand_motion_status d') = "Stable"%string.
Proof. split; [reflexivity|]. eexists. split; reflexivity. Qed.



(** ** One detected hand *)

Lemma prefix_empty (s : string) : prefix "" s = true.
Proof. destruct s; reflexivity. Qed.

Lemma is_flip_for_message (h k : hand_type) (dir : string) (v : float) :
  is_flip_for h (flip_message k dir v) = true <-> h = k.
Proof.
  unfold is_flip_for, flip_message.
  destruct h, k; cbn; split; intros H;
    first [reflexivity | apply prefix_empty | discriminate H].
Qed.

Lemma truthy_flip_message (h : hand_type) (dir : string) (v : float) :
  truthy (Some (flip_message h dir v)) = true.
Proof. destruct h; reflexivity. Qed.

Lemma flip_among_app (h : hand_type) (a b : list string) :
  flip_among h (a ++ b) = flip_among h a || flip_among h b.
Proof. apply existsb_app. Qed.

Section Frames.

Variable norm : vec3 -> float.

(** The evaluation never touches a window, nor the other hand. *)
Lemma detect_flipping_motion_effect (d d' : HandDetector) (h : hand_type)
  (r : option string) :
  detect_flipping_motion norm d h = Ret (d', r) ->
  hand_history d' = hand_history d /\
  (forall k, k <> h ->
     get k (hand_motion_status d') = get k (hand_motion_status d) /\
     get k (flip_cooldown d') = get k (flip_cooldown d)) /\
  (0 < get h (flip_cooldown d) -> r = None /\ d' = d) /\
  match r with
  | None => get h (flip_cooldown d') = get h (flip_cooldown d)
  | Some msg =>
      (exists dir v, msg = flip_message h dir v) /\
      get h (flip_cooldown d') = cooldown_frames
  end.
Proof.
  intros Hrun.
  destruct (Z.lt_ge_cases 0 (get h (flip_cooldown d))) as [Hpos|Hcd].
  { rewrite detect_flipping_motion_blocked in Hrun by exact Hpos.
    injection Hrun as <- <-. repeat split; reflexivity. }
  destruct (Z.lt_ge_cases (len (get h (hand_history d))) 5) as [Hs|Hl].
  { rewrite detect_flipping_motion_short in Hrun by exact Hs.
    injection Hrun as <- <-. repeat split; try reflexivity; lia. }
  rewrite detect_flipping_motion_eq in Hrun by lia.
  destruct (flip_condition (get h (hand_history d))).
  - unfold flipped in Hrun. injection Hrun as <- <-.
    split; [reflexivity|]. split.
    { intros k Hk. cbn [hand_motion_status flip_cooldown set_cooldown
                        set_status].
      rewrite !get_set_other by exact Hk. split; reflexivity. }
    split; [lia|]. split; [eauto|].
    cbn [flip_cooldown set_cooldown]. apply get_set_same.
  - injection Hrun as <- <-.
    split; [reflexivity|]. split.
    { intros k Hk. cbn [hand_motion_status flip_cooldown set_status].
      rewrite get_set_other by exact Hk. split; reflexivity. }
    split; [lia|]. reflexivity.
Qed.

Lemma track_hand_motion_step (d d' : HandDetector) (lm : landmarks)
  (h : hand_type) (palm : bool) (r : option string) :
  track_hand_motion norm d lm h palm = Ret (d', r) -> hand_step h d d' r.
Proof.
  unfold track_hand_motion.
  destruct (getitem lm 0) as [wrist|]; [|discriminate].
  destruct (getitem lm 5) as [index_mcp|]; [|discriminate].
  destruct (getitem lm 17) as [pinky_mcp|]; [|discriminate].
  destruct (getitem lm 12) as [middle_tip|]; [|discriminate].
  cbn [bind]. cbv zeta.
  match goal with
  | |- context [set_history h (deque_append _ ?s) d] =>
      set (cur := s); set (d0 := set_history h (deque_append _ cur) d)
  end.
  assert (Hh : get h (hand_history d0)
               = deque_append (get h (hand_history d)) cur).
  { unfold d0. cbn [hand_history set_history]. apply get_set_same. }
  assert (Ho : forall k, k <> h ->
               get k (hand_history d0) = get k (hand_history d)).
  { intros k Hk. unfold d0. cbn [hand_history set_history].
    apply get_set_other. exact Hk. }
  destruct (len (get h (hand_history d0)) <? 5).
  - intros Hrun. injection Hrun as <- <-.
    split; [eauto|]. split; [intros k Hk; rewrite Ho by exact Hk;
                             repeat split|].
    split; [intros _; repeat split|reflexivity].
  - intros Hrun. apply detect_flipping_motion_effect in Hrun.
    destruct Hrun as [Hhist [Hoth [Hblock Hr]]].
    split; [exists cur; rewrite Hhist; exact Hh|].
    split.
    { intros k Hk. rewrite Hhist. rewrite Ho by exact Hk.
      destruct (Hoth k Hk) as [H1 H2]. rewrite H1, H2.
      repeat split. }
    split; [|exact Hr].
    intros Hpos. destruct (Hblock Hpos) as [-> ->]. repeat split.
Qed.

Lemma process_hand_inv (d d' : HandDetector) (hi hi' : list hand_info)
  (mm mm' : list string) (lm : landmarks) (h : hand_type) :
  process_hand norm (d, hi, mm) (lm, h) = Ret (d', hi', mm') ->
  exists r,
    hand_step h d d' r /\
    mm' = mm ++ match r with Some msg => [msg] | None => [] end.
Proof.
  unfold process_hand.
  destruct (count_fingers lm h) as [[n st]|]; [|discriminate].
  destruct (is_palm_showing lm h) as [palm|]; [|discriminate].
  cbn [bind].
  destruct (track_hand_motion norm d lm h palm) as [[d1 r]|] eqn:Et;
    [|discriminate].
  cbn [bind]. intros Hrun. injection Hrun as <- _ <-.
  apply track_hand_motion_step in Et.
  exists r. split; [exact Et|].
  destruct r as [msg|]; [|symmetry; apply app_nil_r].
  destruct Et as [_ [_ [_ [[dir [v ->]] _]]]].
  rewrite truthy_flip_message. reflexivity.
Qed.

Lemma hand_eq_dec (h k : hand_type) : {h = k} + {h <> k}.
Proof. decide equality. Qed.

Lemma hand_step_effect (h k : hand_type) (d d' : HandDetector)
  (r : option string) :
  hand_step k d d' r ->
  loop_effect h d d' match r with Some msg => [msg] | None => [] end.
Proof.
  intros [_ [Hoth [Hblock Hr]]].
  destruct (hand_eq_dec h k) as [->|Hne].
  - split.
    + intros Hpos. destruct (Hblock Hpos) as [-> [Hs Hc]].
      repeat split; assumption.
    + intros Hcd. destruct r as [msg|].
      * right. destruct Hr as [[dir [v ->]] Hc]. split; [exact Hc|].
        unfold flip_among. cbn [existsb].
        replace (is_flip_for k (flip_message k dir v)) with true
          by (symmetry; apply is_flip_for_message; reflexivity).
        reflexivity.
      * left. split; [exact Hr|reflexivity].
  - destruct (Hoth h Hne) as [_ [Hs Hc]].
    assert (Hno : flip_among h match r with
                               | Some msg => [msg]
                               | None => []
                               end = false).
    { destruct r as [msg|]; [|reflexivity].
      destruct Hr as [[dir [v ->]] _]. unfold flip_among. cbn [existsb].
      destruct (is_flip_for h (flip_message k dir v)) eqn:E;
        [|reflexivity].
      apply is_flip_for_message in E. congruence. }
    split.
    + intros _. repeat split; assumption.
    + intros _. left. split; assumption.
Qed.

Lemma loop_effect_trans (h : hand_type) (d d1 d2 : HandDetector)
  (a b : list string) :
  loop_effect h d d1 a -> loop_effect h d1 d2 b ->
  loop_effect h d d2 (a ++ b).
Proof.
  intros [Hp1 Hz1] [Hp2 Hz2].
  pose proof (eq_refl : cooldown_frames = 15) as Hcf.
  split.
  - intros Hpos. destruct (Hp1 Hpos) as [Hc [Hs Hf]].
    assert (Hpos1 : 0 < get h (flip_cooldown d1)) by lia.
    destruct (Hp2 Hpos1) as [Hc2 [Hs2 Hf2]].
    rewrite flip_among_app, Hf, Hf2.
    split; [congruence|]. split; [congruence|reflexivity].
  - intros Hcd. rewrite flip_among_app.
    destruct (Hz1 Hcd) as [[Hc Hf]|[Hc Hf]]; rewrite Hf.
    + assert (Hcd1 : get h (flip_cooldown d1) <= 0) by lia.
      destruct (Hz2 Hcd1) as [[Hc2 Hf2]|[Hc2 Hf2]].
      * left. split; [congruence|exact Hf2].
      * right. split; [exact Hc2|exact Hf2].
    + assert (Hpos1 : 0 < get h (flip_cooldown d1)) by lia.
      destruct (Hp2 Hpos1) as [Hc2 _].
      right. split; [congruence|reflexivity].
Qed.

Lemma process_hands_effect (results : list (landmarks * hand_type)) :
  forall (d d' : HandDetector) (hi hi' : list hand_info)
         (mm mm' : list string),
  process_hands norm (d, hi, mm) results = Ret (d', hi', mm') ->
  exists new, mm' = mm ++ new /\ forall h, loop_effect h d d' new.
Proof.
  induction results as [|[lm k] rest IH]; intros d d' hi hi' mm mm' Hrun.
  - cbn in Hrun. injection Hrun as <- _ <-.
    exists []. split; [symmetry; apply app_nil_r|].
    intros h. split; [intros _; repeat split|intros _; left; split];
      reflexivity.
  - cbn [process_hands] in Hrun.
    destruct (process_hand norm (d, hi, mm) (lm, k)) as [[[d1 hi1] mm1]|]
      eqn:E1; [|discriminate].
    cbn [bind] in Hrun.
    apply process_hand_inv in E1. destruct E1 as [r [Hstep ->]].
    apply IH in Hrun. destruct Hrun as [new [-> Hrest]].
    eexists. split; [symmetry; apply app_assoc|].
    intros h. eapply loop_effect_trans; [|apply Hrest].
    apply (hand_step_effect h k). exact Hstep.
Qed.

(** *** The two loops over both hands *)

Lemma tick_both (d : HandDetector) (h : hand_type) :
  let d' := fold_left tick_cooldown [Left; Right] d in
  get h (flip_cooldown d')
  = (if 0 <? get h (flip_cooldown d) then get h (flip_cooldown d) - 1
     else get h (flip_cooldown d)) /\
  hand_history d' = hand_history d /\
  hand_motion_status d' = hand_motion_status d.
Proof.
  destruct d as [hist st [cl cr]]. cbn [fold_left]. unfold tick_cooldown.
  cbn [flip_cooldown get at_left at_right].
  destruct (0 <? cl) eqn:El; cbn [flip_cooldown set_cooldown set get
                                  at_left at_right];
    destruct (0 <? cr) eqn:Er; cbn [flip_cooldown set_cooldown set get
                                    at_left at_right hand_history
                                    hand_motion_status];
    destruct h; cbn [get at_left at_right]; rewrite ?El, ?Er;
    repeat split.
Qed.

Lemma reset_both (d : HandDetector) (h : hand_type) :
  let d' := fold_left reset_hand [Left; Right] d in
  get h (hand_history d') = [] /\
  get h (hand_motion_status d')
  = (if 0 <? len (get h (hand_history d)) then "Unknown"%string
     else get h (hand_motion_status d)) /\
  flip_cooldown d' = flip_cooldown d.
Proof.
  destruct d as [[hl hr] [sl sr] cd]. cbn [fold_left]. unfold reset_hand.
  destruct hl as [|a hl], hr as [|b hr], h; repeat split.
Qed.

(** *** One frame *)

(** Cooldown of hand [h] across one frame, and the frame's messages. *)
Lemma detect_hands_cooldown (d d' : HandDetector)
  (results : list (landmarks * hand_type)) (hi : list hand_info)
  (msgs : list string) (h : hand_type) :
  detect_hands norm d results = Ret (d', hi, msgs) ->
  (0 < get h (flip_cooldown d) ->
     get h (flip_cooldown d') = get h (flip_cooldown d) - 1 /\
     flip_among h msgs = false) /\
  (get h (flip_cooldown d) <= 0 ->
     (get h (flip_cooldown d') = get h (flip_cooldown d) /\
      flip_among h msgs = false) \/
     (get h (flip_cooldown d') = cooldown_frames - 1 /\
      flip_among h msgs = true)).
Proof.
  unfold detect_hands. intros Hrun.
  pose proof (eq_refl : cooldown_frames = 15) as Hcf.
  destruct results as [|det rest].
  - cbn [bind] in Hrun. injection Hrun as <- _ <-.
    destruct (tick_both (fold_left reset_hand [Left; Right] d) h)
      as [Ht _].
    destruct (reset_both d h) as [_ [_ Hc]].
    cbv zeta in Ht, Hc. cbn [fold_left] in Ht, Hc.
    rewrite Ht, Hc. split.
    + intros Hpos.
      replace (0 <? get h (flip_cooldown d)) with true
        by (symmetry; apply Z.ltb_lt; exact Hpos).
      split; reflexivity.
    + intros Hz.
      replace (0 <? get h (flip_cooldown d)) with false
        by (symmetry; apply Z.ltb_ge; exact Hz).
      left. split; reflexivity.
  - destruct (process_hands norm (d, [], []) (det :: rest))
      as [[[d1 hi1] mm1]|] eqn:E; [|discriminate].
    cbn [bind] in Hrun. injection Hrun as <- _ <-.
    apply process_hands_effect in E. destruct E as [new [-> Heff]].
    cbn [app]. destruct (Heff h) as [Hp Hz].
    destruct (tick_both d1 h) as [Ht _].
    cbv zeta in Ht. cbn [fold_left] in Ht |- *. rewrite Ht.
    split.
    + intros Hpos. destruct (Hp Hpos) as [Hc [_ Hf]]. rewrite Hc.
      replace (0 <? get h (flip_cooldown d)) with true
        by (symmetry; apply Z.ltb_lt; exact Hpos).
      split; [reflexivity|exact Hf].
    + intros Hcd. destruct (Hz Hcd) as [[Hc Hf]|[Hc Hf]]; rewrite Hc.
      * replace (0 <? get h (flip_cooldown d)) with false
          by (symmetry; apply Z.ltb_ge; exact Hcd).
        left. split; [reflexivity|exact Hf].
      * right. split; [reflexivity|exact Hf].
Qed.

(** *** Frames of full landmark sets are processed without exception *)

Lemma track_hand_motion_eq (d : HandDetector) (lm : landmarks)
  (h : hand_type) (palm : bool) :
  length lm = 21%nat ->
  track_hand_motion norm d lm h palm =
  let d1 := set_history h (deque_append (get h (hand_history d))
                                        (current_sample norm lm palm)) d in
  if len (get h (hand_history d1)) <? 5 then Ret (d1, None)
  else detect_flipping_motion norm d1 h.
Proof. intros H. split_landmarks lm H. reflexivity. Qed.

Lemma detect_flipping_motion_total (d : HandDetector) (h : hand_type) :
  exists d' r, detect_flipping_motion norm d h = Ret (d', r).
Proof.
  destruct (Z.lt_ge_cases 0 (get h (flip_cooldown d))) as [Hpos|Hcd].
  { rewrite detect_flipping_motion_blocked by exact Hpos. eauto. }
  destruct (Z.lt_ge_cases (len (get h (hand_history d))) 5) as [Hs|Hl].
  { rewrite detect_flipping_motion_short by exact Hs. eauto. }
  rewrite detect_flipping_motion_eq by lia.
  destruct (flip_condition _); [unfold flipped|]; eauto.
Qed.

Lemma track_hand_motion_total (d : HandDetector) (lm : landmarks)
  (h : hand_type) (palm : bool) :
  length lm = 21%nat ->
  exists d' r, track_hand_motion norm d lm h palm = Ret (d', r).
Proof.
  intros H. rewrite track_hand_motion_eq by exact H. cbv zeta.
  destruct (len _ <? 5); [eauto|apply detect_flipping_motion_total].
Qed.

Lemma process_hand_total (acc : HandDetector * list hand_info * list string)
  (lm : landmarks) (h : hand_type) :
  length lm = 21%nat ->
  exists acc', process_hand norm acc (lm, h) = Ret acc'.
Proof.
  intros H. destruct acc as [[d hi] mm]. unfold process_hand.
  destruct (count_fingers_eq lm h H) as [palm [Hp Hc]]. cbv zeta in Hc.
  rewrite Hc, Hp. cbn [bind].
  destruct (track_hand_motion_total d lm h palm H) as [d1 [r ->]].
  cbn [bind]. eauto.
Qed.

Lemma process_hands_total (results : list (landmarks * hand_type)) :
  valid_frame results ->
  forall acc, exists acc', process_hands norm acc results = Ret acc'.
Proof.
  induction 1 as [|[lm h] rest Hlm _ IH]; intros acc.
  - cbn. eauto.
  - cbn [process_hands].
    destruct (process_hand_total acc lm h Hlm) as [acc1 ->].
    cbn [bind]. apply IH.
Qed.

Lemma detect_hands_total (d : HandDetector)
  (results : list (landmarks * hand_type)) :
  valid_frame results ->
  exists d' hi msgs, detect_hands norm d results = Ret (d', hi, msgs).
Proof.
  intros Hv. unfold detect_hands. destruct results as [|det rest].
  - cbn [bind]. eauto.
  - destruct (process_hands_total _ Hv (d, [], [])) as [[[d1 hi] mm] ->].
    cbn [bind]. eauto.
Qed.

Lemma run_total (frames : list (list (landmarks * hand_type))) :
  Forall valid_frame frames ->
  forall d, exists d' out, run norm d frames = Ret (d', out).
Proof.
  induction 1 as [|f rest Hf _ IH]; intros d.
  - cbn. eauto.
  - cbn [run].
    destruct (detect_hands_total d f Hf) as [d1 [hi [msgs ->]]].
    cbn [bind]. destruct (IH d1) as [d2 [out ->]]. cbn [bind]. eauto.
Qed.

(** *** Runs of frames under a positive cooldown *)






End Frames.

(** ** A run with two flips *)

(** ** Cooldown *)



(** The whole run: a flip at frame 5, silence for 14 frames although the
    window still holds a reversal, and a second flip at frame 20. *)
Example two_flips_fifteen_frames_apart :
  messages_of (run plain_norm init (turning_frames 15 ++ [[(palm_hand, Right)]]))
  = [[]; []; []; [];
     ["Right Hand flipped: Palm to Back (velocity: 0.5000)"%string];
     []; []; []; []; []; []; []; []; []; []; []; []; []; [];
     ["Right Hand flipped: Back to Palm (velocity: 0.2222)"%string]].
Proof. vm_compute. reflexivity. Qed.



(** ** Degenerate geometry *)




(** ** The rolling window *)

Lemma deque_append_length {A : Type} (dq : list A) (s : A) :
  (length dq <= maxlen)%nat ->
  length (deque_append dq s) = Nat.min maxlen (S (length dq)).
Proof.
  unfold deque_append, maxlen. intros H.
  destruct (10 <=? length dq)%nat eqn:E.
  - apply Nat.leb_le in E. rewrite length_app.
    destruct dq as [|a dq]; cbn [length tl] in *; lia.
  - apply Nat.leb_gt in E. rewrite length_app. cbn [length]. lia.
Qed.

Lemma deque_append_nonempty {A : Type} (dq : list A) (s : A) :
  deque_append dq s <> [].
Proof.
  unfold deque_append. destruct (maxlen <=? length dq)%nat;
    intros H; apply app_eq_nil in H; destruct H as [_ H]; discriminate H.
Qed.

Lemma deque_append_full {A : Type} (dq : list A) (s : A) :
  length dq = maxlen -> deque_append dq s = tl dq ++ [s].
Proof.
  unfold deque_append. intros ->. reflexivity.
Qed.

Lemma tl_skipn {A : Type} (k : nat) (l : list A) :
  tl (skipn k l) = skipn (S k) l.
Proof.
  revert l. induction k as [|k IH]; intros [|a l]; try reflexivity.
  cbn [skipn]. rewrite IH. destruct l; reflexivity.
Qed.

(** Appending a whole sequence to an empty window keeps its last ten. *)
Lemma deque_appends_last_ten {A : Type} (xs : list A) :
  fold_left deque_append xs [] = skipn (length xs - maxlen) xs.
Proof.
  induction xs as [|x xs IH] using rev_ind; [reflexivity|].
  rewrite fold_left_app. cbn [fold_left]. rewrite IH.
  unfold deque_append, maxlen. rewrite length_skipn, length_app.
  cbn [length].
  destruct (10 <=? length xs - (length xs - 10))%nat eqn:E.
  - apply Nat.leb_le in E. rewrite tl_skipn.
    replace (length xs + 1 - 10)%nat with (S (length xs - 10)) by lia.
    rewrite skipn_app.
    replace (S (length xs - 10) - length xs)%nat with 0%nat by lia.
    reflexivity.
  - apply Nat.leb_gt in E.
    replace (length xs - 10)%nat with 0%nat by lia.
    replace (length xs + 1 - 10)%nat with 0%nat by lia.
    reflexivity.
Qed.

Section Windows.

Variable norm : vec3 -> float.

(** Windows across the loop over the detected hands. *)
Lemma process_hands_history (results : list (landmarks * hand_type)) :
  forall (d d' : HandDetector) (hi hi' : list hand_info)
         (mm mm' : list string) (h : hand_type),
  process_hands norm (d, hi, mm) results = Ret (d', hi', mm') ->
  ((length (get h (hand_history d)) <= maxlen)%nat ->
   (length (get h (hand_history d')) <= maxlen)%nat) /\
  (~ In h (map snd results) ->
   get h (hand_history d') = get h (hand_history d) /\
   get h (hand_motion_status d') = get h (hand_motion_status d) /\
   get h (flip_cooldown d') = get h (flip_cooldown d)) /\
  (In h (map snd results) \/ get h (hand_history d) <> [] ->
   get h (hand_history d') <> []).
Proof.
  induction results as [|[lm k] rest IH];
    intros d d' hi hi' mm mm' h Hrun.
  - cbn in Hrun. injection Hrun as <- _ _.
    split; [tauto|]. split; [intros _; repeat split|].
    intros [[]|H]; exact H.
  - cbn [process_hands] in Hrun.
    destruct (process_hand norm (d, hi, mm) (lm, k)) as [[[d1 hi1] mm1]|]
      eqn:E1; [|discriminate].
    cbn [bind] in Hrun.
    apply process_hand_inv in E1.
    destruct E1 as [r [[[s Hs] [Hoth _]] _]].
    destruct (IH _ _ _ _ _ _ h Hrun) as [Hlen [Hout Hin]].
    cbn [map snd In].
    destruct (hand_eq_dec h k) as [->|Hne].
    + split; [|split].
      * intros Hd. apply Hlen. rewrite Hs, deque_append_length by exact Hd.
        apply Nat.le_min_l.
      * intros Hn. exfalso. apply Hn. left. reflexivity.
      * intros _. apply Hin. right. rewrite Hs.
        apply deque_append_nonempty.
    + destruct (Hoth h Hne) as [Hh [Hst Hc]].
      split; [|split].
      * intros Hd. apply Hlen. rewrite Hh. exact Hd.
      * intros Hn. destruct Hout as [H1 [H2 H3]]; [tauto|].
        rewrite H1, H2, H3. repeat split; assumption.
      * intros [[Hk|Hr]|Hd]; [congruence| |].
        -- apply Hin. left. exact Hr.
        -- apply Hin. right. rewrite Hh. exact Hd.
Qed.

Lemma detect_hands_history_bound (d d' : HandDetector)
  (results : list (landmarks * hand_type)) (hi : list hand_info)
  (msgs : list string) (h : hand_type) :
  detect_hands norm d results = Ret (d', hi, msgs) ->
  (length (get h (hand_history d)) <= maxlen)%nat ->
  (length (get h (hand_history d')) <= maxlen)%nat.
Proof.
  unfold detect_hands. intros Hrun Hd.
  destruct results as [|det rest].
  - cbn [bind] in Hrun. injection Hrun as <- _ _.
    destruct (tick_both (fold_left reset_hand [Left; Right] d) h)
      as [_ [Hh _]].
    destruct (reset_both d h) as [Hr _]. cbv zeta in Hh, Hr.
    cbn [fold_left] in Hh, Hr |- *. rewrite Hh, Hr.
    cbn. lia.
  - destruct (process_hands norm (d, [], []) (det :: rest))
      as [[[d1 hi1] mm1]|] eqn:E; [|discriminate].
    cbn [bind] in Hrun. injection Hrun as <- _ _.
    destruct (tick_both d1 h) as [_ [Hh _]]. cbv zeta in Hh.
    cbn [fold_left] in Hh |- *. rewrite Hh.
    destruct (process_hands_history _ _ _ _ _ _ _ h E) as [Hlen _].
    apply Hlen. exact Hd.
Qed.

Lemma run_history_bound (frames : list (list (landmarks * hand_type))) :
  forall (d d' : HandDetector) (out : list (list string)) (h : hand_type),
  run norm d frames = Ret (d', out) ->
  (length (get h (hand_history d)) <= maxlen)%nat ->
  (length (get h (hand_history d')) <= maxlen)%nat.
Proof.
  induction frames as [|f rest IH]; intros d d' out h Hrun Hd.
  - cbn in Hrun. injection Hrun as <- <-. exact Hd.
  - cbn [run] in Hrun.
    destruct (detect_hands norm d f) as [[[d1 hi] msgs]|] eqn:E1;
      [|discriminate].
    cbn [bind] in Hrun.
    destruct (run norm d1 rest) as [[d2 out2]|] eqn:E2; [|discriminate].
    cbn [bind] in Hrun. injection Hrun as <- <-.
    apply (IH _ _ _ h E2).
    apply (detect_hands_history_bound _ _ _ _ _ h E1 Hd).
Qed.

End Windows.

(** C8. Every window the detector reaches holds at most 10 samples, and a
    window is a queue: processing a detection appends one sample with the
    deque's append, which on a full window drops exactly the oldest
    sample; appending any sequence to an empty window leaves its last ten
    in order, so after 11 appends exactly the 10 samples after the first
    remain. *)
Theorem history_bounded_fifo (norm : vec3 -> float) :
  (forall frames d' out h,
     run norm init frames = Ret (d', out) ->
     (length (get h (hand_history d')) <= 10)%nat) /\
  (forall d lm h palm d' r,
     track_hand_motion norm d lm h palm = Ret (d', r) ->
     exists s, get h (hand_history d')
               = deque_append (get h (hand_history d)) s) /\
  (forall (dq : list sample) (s : sample),
     (length dq <= 10)%nat ->
     length (deque_append dq s) = Nat.min 10 (S (length dq))) /\
  (forall (dq : list sample) (s : sample),
     length dq = 10%nat -> deque_append dq s = tl dq ++ [s]) /\
  (forall xs : list sample,
     fold_left deque_append xs [] = skipn (length xs - 10) xs) /\
  (forall (s1 : sample) (rest : list sample),
     length rest = 10%nat ->
     fold_left deque_append (s1 :: rest) [] = rest).
Proof.
  split; [|split; [|split; [|split; [|split]]]].
  - intros frames d' out h Hrun.
    apply (run_history_bound norm frames init d' out h Hrun).
    destruct h; cbn; lia.
  - intros d lm h palm d' r Hrun.
    apply track_hand_motion_step in Hrun. destruct Hrun as [Hs _]. exact Hs.
  - intros dq s. apply deque_append_length.
  - intros dq s. apply deque_append_full.
  - intros xs. apply deque_appends_last_ten.
  - intros s1 rest Hlen. rewrite deque_appends_last_ten.
    cbn [length]. rewrite Hlen. reflexivity.
Qed.

Lemma history_bounded_fifo_witness :
  fold_left deque_append (still_sample :: repeat moved_sample 10) []
  = repeat moved_sample 10.
Proof.
  destruct (history_bounded_fifo plain_norm) as [_ [_ [_ [_ [_ H]]]]].
  apply (H still_sample (repeat moved_sample 10)). reflexivity.
Defined.

(** ** A hand that leaves the frame *)

(** The Left hand is seen for five frames; in the sixth only a Right hand
    is detected.  The Left window still holds its five samples and the
    Left status is still "Stable". *)
Lemma absent_hand_keeps_window :
  exists d out,
    run plain_norm init (repeat [(palm_hand, Left)] 5 ++ [[(palm_hand, Right)]])
    = Ret (d, out) /\
    length (get Left (hand_history d)) = 5%nat /\
    get Left (hand_motion_status d) = "Stable"%string.
Proof. vm_compute. do 2 eexists. repeat split. Qed.

(** C1, amended. A hand present in frame N: if frame N+1 detects no hand
    at all, that hand's window is empty and its status is Unknown after
    frame N+1; if frame N+1 detects only the other hand, its window and
    status are left as they were.  In both cases its cooldown is lowered
    by 1 if it was positive and stays as it was otherwise. *)
Theorem absent_hand_reset_only_without_hands
  (norm : vec3 -> float) (d d1 : HandDetector)
  (frameN : list (landmarks * hand_type)) (hi1 : list hand_info)
  (m1 : list string) (h : hand_type) :
  detect_hands norm d frameN = Ret (d1, hi1, m1) ->
  In h (map snd frameN) ->
  let ticked := if 0 <? get h (flip_cooldown d1)
                then get h (flip_cooldown d1) - 1
                else get h (flip_cooldown d1) in
  (exists d2,
     detect_hands norm d1 [] = Ret (d2, [], []) /\
     length (get h (hand_history d2)) = 0%nat /\
     get h (hand_motion_status d2) = "Unknown"%string /\
     get h (flip_cooldown d2) = ticked) /\
  (forall frameN1 d2 hi2 m2,
     frameN1 <> [] ->
     ~ In h (map snd frameN1) ->
     detect_hands norm d1 frameN1 = Ret (d2, hi2, m2) ->
     get h (hand_history d2) = get h (hand_history d1) /\
     get h (hand_history d2) <> [] /\
     get h (hand_motion_status d2) = get h (hand_motion_status d1) /\
     get h (flip_cooldown d2) = ticked).
Proof.
  intros HrunN Hin ticked.
  assert (Hne : get h (hand_history d1) <> []).
  { unfold detect_hands in HrunN.
    destruct frameN as [|det rest]; [destruct Hin|].
    destruct (process_hands norm (d, [], []) (det :: rest))
      as [[[d0 hi0] mm0]|] eqn:E; [|discriminate].
    cbn [bind] in HrunN. injection HrunN as <- _ _.
    destruct (tick_both d0 h) as [_ [Hh _]]. cbv zeta in Hh.
    cbn [fold_left] in Hh |- *. rewrite Hh.
    destruct (process_hands_history norm _ _ _ _ _ _ _ h E) as [_ [_ Hn]].
    apply Hn. left. exact Hin. }
  split.
  - eexists. split; [reflexivity|].
    destruct (tick_both (fold_left reset_hand [Left; Right] d1) h)
      as [Hc [Hh Hs]].
    destruct (reset_both d1 h) as [Hr [Hst Hcd]].
    cbv zeta in Hc, Hh, Hs, Hr, Hst, Hcd.
    rewrite Hh, Hs, Hc, Hr, Hst, Hcd.
    split; [reflexivity|]. split; [|reflexivity].
    replace (0 <? len (get h (hand_history d1))) with true; [reflexivity|].
    symmetry. apply Z.ltb_lt. unfold len.
    destruct (get h (hand_history d1)); [congruence|cbn [length]; lia].
  - intros frameN1 d2 hi2 m2 Hne1 Hout Hrun.
    unfold detect_hands in Hrun.
    destruct frameN1 as [|det rest]; [congruence|].
    destruct (process_hands norm (d1, [], []) (det :: rest))
      as [[[d0 hi0] mm0]|] eqn:E; [|discriminate].
    cbn [bind] in Hrun. injection Hrun as <- _ _.
    destruct (tick_both d0 h) as [Hc [Hh Hs]]. cbv zeta in Hc, Hh, Hs.
    cbn [fold_left] in Hc, Hh, Hs |- *. rewrite Hh, Hs, Hc.
    destruct (process_hands_history norm _ _ _ _ _ _ _ h E)
      as [_ [Hsame _]].
    destruct (Hsame Hout) as [H1 [H2 H3]]. rewrite H1, H2, H3.
    repeat split. exact Hne.
Qed.

Lemma absent_hand_reset_only_without_hands_witness :
  exists d2,
    detect_hands plain_norm
      (state_of (run plain_norm init (repeat [(palm_hand, Left)] 5))) []
    = Ret (d2, [], []) /\
    length (get Left (hand_history d2)) = 0%nat /\
    get Left (hand_motion_status d2) = "Unknown"%string.
Proof.
  assert (E : exists hi m,
            detect_hands plain_norm
              (state_of (run plain_norm init (repeat [(palm_hand, Left)] 4)))
              [(palm_hand, Left)]
            = Ret (state_of (run plain_norm init (repeat [(palm_hand, Left)] 5)),
                   hi, m)).
  { vm_compute. do 2 eexists. reflexivity. }
  destruct E as [hi [m E]].
  destruct (absent_hand_reset_only_without_hands plain_norm _ _ _ _ _ Left E)
    as [[d2 [Hrun [Hl [Hs _]]]] _].
  { left. reflexivity. }
  exists d2. split; [exact Hrun|]. split; [exact Hl|exact Hs].
Defined.

(** * Further properties of the code *)

(** ** Landmark sets of any length *)

Lemma getitem_in_range {A : Type} (l : list A) (i : Z) (d : A) :
  0 <= i < len l -> getitem l i = Ret (nth (Z.to_nat i) l d).
Proof.
  unfold len. intros Hi. apply getitem_nth; [lia|].
  apply nth_error_nth'. lia.
Qed.

Lemma getitem_out_of_range {A : Type} (l : list A) (i : Z) :
  len l <= i -> getitem l i = IndexError.
Proof.
  unfold len, getitem. intros Hi.
  destruct (i <? 0) eqn:E; [apply Z.ltb_lt in E; lia|].
  replace (i <? Z.of_nat (length l)) with false
    by (symmetry; apply Z.ltb_ge; exact Hi).
  rewrite andb_false_r. reflexivity.
Qed.

Lemma getitem_app_l {A : Type} (l extra : list A) (i : Z) :
  0 <= i < len l -> getitem (l ++ extra) i = getitem l i.
Proof.
  intros Hi. destruct l as [|a l]; [unfold len in Hi; cbn in Hi; lia|].
  rewrite (getitem_in_range (a :: l) i a Hi).
  rewrite (getitem_in_range ((a :: l) ++ extra) i a).
  - rewrite app_nth1; [reflexivity|]. unfold len in Hi. lia.
  - unfold len in *. rewrite length_app. lia.
Qed.

Lemma mapM_ext_in {A B : Type} (f g : A -> py B) (l : list A) :
  (forall a, In a l -> f a = g a) -> mapM f l = mapM g l.
Proof.
  induction l as [|a l IH]; intros H; [reflexivity|].
  cbn [mapM]. rewrite (H a (or_introl eq_refl)), IH; [reflexivity|].
  intros b Hb. apply H. right. exact Hb.
Qed.

Lemma mapM_raises {A B : Type} (f : A -> py B) (l : list A) (a : A) :
  In a l -> f a = IndexError -> mapM f l = IndexError.
Proof.
  induction l as [|b l IH]; intros Hin Ha; [destruct Hin|].
  cbn [mapM]. destruct Hin as [->|Hin].
  - rewrite Ha. reflexivity.
  - destruct (f b); [|reflexivity]. cbn [bind].
    rewrite (IH Hin Ha). reflexivity.
Qed.

Lemma in_range_iff (n : nat) (i : Z) :
  In i (range n) <-> 0 <= i < Z.of_nat n.
Proof.
  unfold range. rewrite in_map_iff. split.
  - intros [k [<- Hk]]. apply in_seq in Hk. lia.
  - intros Hi. exists (Z.to_nat i). split; [lia|]. apply in_seq. lia.
Qed.

Lemma is_palm_showing_app (l extra : landmarks) (h : hand_type) :
  (18 <= length l)%nat ->
  is_palm_showing (l ++ extra) h = is_palm_showing l h.
Proof.
  intros H. unfold is_palm_showing.
  rewrite !getitem_app_l by (unfold len; lia). reflexivity.
Qed.

Lemma is_palm_showing_short (lm : landmarks) (h : hand_type) :
  (length lm < 18)%nat -> is_palm_showing lm h = IndexError.
Proof.
  intros H. unfold is_palm_showing.
  destruct (getitem lm 0); [|reflexivity]. cbn [bind].
  destruct (getitem lm 5); [|reflexivity]. cbn [bind].
  rewrite (getitem_out_of_range lm 17) by (unfold len; lia). reflexivity.
Qed.

Lemma count_fingers_app (l extra : landmarks) (h : hand_type) :
  length l = 21%nat ->
  count_fingers (l ++ extra) h = count_fingers l h.
Proof.
  intros H. unfold count_fingers.
  rewrite is_palm_showing_app by lia.
  rewrite (mapM_ext_in
             (fun idx => p <- getitem (l ++ extra) idx ;; Ret (x p, y p, z p))
             (fun idx => p <- getitem l idx ;; Ret (x p, y p, z p)));
    [reflexivity|].
  intros i Hi. apply in_range_iff in Hi.
  rewrite getitem_app_l by (unfold len; lia). reflexivity.
Qed.

Lemma count_fingers_short (lm : landmarks) (h : hand_type) :
  (length lm < 21)%nat -> count_fingers lm h = IndexError.
Proof.
  intros H. unfold count_fingers.
  rewrite (mapM_raises _ (range 21) (Z.of_nat (length lm))); [reflexivity| |].
  - apply in_range_iff. lia.
  - rewrite getitem_out_of_range by (unfold len; lia). reflexivity.
Qed.

Lemma count_fingers_long (lm : landmarks) (h : hand_type) :
  (21 <= length lm)%nat ->
  count_fingers lm h = count_fingers (firstn 21 lm) h /\
  exists n st, count_fingers lm h = Ret (n, st).
Proof.
  intros H.
  assert (Hl : length (firstn 21 lm) = 21%nat)
    by (rewrite length_firstn; lia).
  assert (E : count_fingers lm h = count_fingers (firstn 21 lm) h).
  { rewrite <- (firstn_skipn 21 lm) at 1. apply count_fingers_app.
    exact Hl. }
  split; [exact E|]. rewrite E.
  destruct (count_fingers_eq _ h Hl) as [palm [_ Hc]]. cbv zeta in Hc.
  rewrite Hc. eauto.
Qed.

(** X1. [count_fingers] raises [IndexError] exactly on landmark lists of
    fewer than 21 points; on a longer list it returns what it returns on
    the first 21 points, the rest being ignored. *)
Theorem count_fingers_needs_21_points (lm : landmarks) (h : hand_type) :
  (count_fingers lm h = IndexError <-> (length lm < 21)%nat) /\
  ((21 <= length lm)%nat ->
   count_fingers lm h = count_fingers (firstn 21 lm) h /\
   exists n st, count_fingers lm h = Ret (n, st)).
Proof.
  split; [|apply count_fingers_long].
  split.
  - intros Herr. destruct (Nat.lt_ge_cases (length lm) 21) as [Hs|Hl];
      [exact Hs|].
    destruct (count_fingers_long lm h Hl) as [_ [n [st Hr]]]. congruence.
  - apply count_fingers_short.
Qed.

Lemma count_fingers_needs_21_points_witness :
  count_fingers (edge_on_hand ++ [origin; origin]) Left
  = count_fingers (firstn 21 (edge_on_hand ++ [origin; origin])) Left.
Proof.
  destruct (count_fingers_needs_21_points
              (edge_on_hand ++ [origin; origin]) Left) as [_ H].
  apply H. cbn. lia.
Defined.

Lemma is_palm_showing_long (lm : landmarks) (h : hand_type) :
  (18 <= length lm)%nat ->
  is_palm_showing lm h =
  Ret (match h with
       | Right => (vz (palm_normal (pt lm 0) (pt lm 5) (pt lm 17)) >? 0)%float
       | Left => (vz (palm_normal (pt lm 0) (pt lm 5) (pt lm 17)) <? 0)%float
       end).
Proof.
  intros H. unfold is_palm_showing.
  rewrite (getitem_in_range lm 0 origin) by (unfold len; lia).
  rewrite (getitem_in_range lm 5 origin) by (unfold len; lia).
  rewrite (getitem_in_range lm 17 origin) by (unfold len; lia).
  cbn [bind]. destruct h; reflexivity.
Qed.

(** X2. [is_palm_showing] raises [IndexError] exactly on landmark lists of
    fewer than 18 points; on any longer list it answers, and the answer is
    decided by landmarks 0, 5 and 17 alone: two lists that agree on those
    three points get the same answer. *)
Theorem is_palm_showing_needs_18_points (lm : landmarks) (h : hand_type) :
  (is_palm_showing lm h = IndexError <-> (length lm < 18)%nat) /\
  ((18 <= length lm)%nat ->
   (exists b, is_palm_showing lm h = Ret b) /\
   forall lm' : landmarks,
     (18 <= length lm')%nat ->
     pt lm' 0 = pt lm 0 -> pt lm' 5 = pt lm 5 -> pt lm' 17 = pt lm 17 ->
     is_palm_showing lm' h = is_palm_showing lm h).
Proof.
  split.
  - split; [|apply is_palm_showing_short].
    intros Herr. destruct (Nat.lt_ge_cases (length lm) 18) as [Hs|Hl];
      [exact Hs|].
    rewrite is_palm_showing_long in Herr by exact Hl. discriminate Herr.
  - intros Hl. split; [rewrite is_palm_showing_long by exact Hl; eauto|].
    intros lm' Hl' H0 H5 H17.
    rewrite !is_palm_showing_long by assumption.
    rewrite H0, H5, H17. reflexivity.
Qed.

Lemma is_palm_showing_needs_18_points_witness :
  is_palm_showing (firstn 18 palm_hand) Right = is_palm_showing palm_hand Right.
Proof.
  destruct (is_palm_showing_needs_18_points palm_hand Right) as [_ H].
  destruct H as [_ H]; [cbn; lia|].
  apply H; [cbn; lia|reflexivity|reflexivity|reflexivity].
Defined.

(** ** What the orientation test depends on *)

Lemma pt_map (f : point -> point) (lm : landmarks) (i : Z) :
  (Z.to_nat i < length lm)%nat -> pt (map f lm) i = f (pt lm i).
Proof.
  intros H. unfold pt.
  rewrite (nth_indep (map f lm) origin (f origin))
    by (rewrite length_map; exact H).
  apply map_nth.
Qed.

(** A translation is not always harmless: moved far enough, the three
    points round to the same place and the palm is no longer seen. *)
Example translation_can_change_answer :
  is_palm_showing palm_hand Right = Ret true /\
  is_palm_showing (translated (Vec3 1e17 0 0) palm_hand) Right = Ret false.
Proof. split; reflexivity. Qed.



(** ** The thumb rule without the label *)

(** On [collinear_thumb_hand] the z computed is not zero, and the thumb is
    not marked under either label. *)
Example collinear_thumb_same_under_both_labels :
  count_fingers collinear_thumb_hand Left
  = Ret (0, [false; false; false; false; false]) /\
  count_fingers collinear_thumb_hand Right
  = Ret (0, [false; false; false; false; false]).
Proof. split; reflexivity. Qed.

(** X4. On a 21-point set for which the code computes a cross product
    with a z other than zero, [count_fingers] returns the same count and
    the same statuses under both labels: the four-way thumb table then
    comes down to "tip x < IP x when z > 0, tip x > IP x when z < 0".
    The label only matters when the computed z is a zero (or NaN), where
    Left marks the thumb on tip x < IP x and Right on tip x > IP x. *)
Theorem count_fingers_label_irrelevant (lm : landmarks) :
  length lm = 21%nat ->
  let nz := vz (palm_normal (pt lm 0) (pt lm 5) (pt lm 17)) in
  let tx := x (pt lm 4) in
  let ix := x (pt lm 3) in
  exists nl stl nr str tl_ tr_,
    count_fingers lm Left = Ret (nl, stl) /\
    count_fingers lm Right = Ret (nr, str) /\
    nth_error stl 0 = Some tl_ /\ nth_error str 0 = Some tr_ /\
    tl stl = tl str /\
    (~ is_zero nz -> ~ is_nan nz ->
     (nl, stl) = (nr, str) /\
     tl_ = if (nz >? 0)%float then (tx <? ix)%float else (tx >? ix)%float) /\
    (is_zero nz \/ is_nan nz ->
     tl_ = (tx <? ix)%float /\ tr_ = (tx >? ix)%float).
Proof.
  intros H nz tx ix.
  destruct (count_fingers_eq lm Left H) as [pl [Hpl Hcl]].
  destruct (count_fingers_eq lm Right H) as [pr [Hpr Hcr]].
  cbv zeta in Hcl, Hcr.
  rewrite is_palm_showing_eq in Hpl, Hpr by exact H.
  assert (El : pl = (nz <? 0)%float) by (injection Hpl as E; exact (eq_sym E)).
  assert (Er : pr = (nz >? 0)%float) by (injection Hpr as E; exact (eq_sym E)).
  rewrite El in Hcl. rewrite Er in Hcr. fold tx ix in Hcl, Hcr.
  do 6 eexists.
  split; [exact Hcl|]. split; [exact Hcr|].
  split; [reflexivity|]. split; [reflexivity|]. split; [reflexivity|].
  destruct (sign_cases nz) as [Hne Hzn].
  split.
  - intros Hnz Hnn. rewrite (Hne Hnz Hnn).
    destruct (nz >? 0)%float; cbn [negb]; split; reflexivity.
  - intros Hz. destruct (Hzn Hz) as [-> ->]. split; reflexivity.
Qed.

Lemma count_fingers_label_irrelevant_witness :
  count_fingers palm_hand Left = count_fingers palm_hand Right.
Proof.
  destruct (count_fingers_label_irrelevant palm_hand eq_refl)
    as [nl [stl [nr [str [a [b [Hl [Hr [_ [_ [_ [Hne _]]]]]]]]]]]].
  rewrite Hl, Hr. destruct Hne as [E _]; [| |rewrite E; reflexivity];
    vm_compute; discriminate.
Defined.

(** ** Which frames raise *)

Section Raising.

Variable norm : vec3 -> float.





End Raising.


(** ** The records of a frame *)

Lemma count_fingers_returns (lm : landmarks) (h : hand_type) (n : Z)
  (st : list bool) :
  count_fingers lm h = Ret (n, st) ->
  length st = 5%nat /\ n = Z.of_nat (count_occ bool_dec st true) /\
  0 <= n <= 5.
Proof.
  intros Hc.
  destruct (Nat.lt_ge_cases (length lm) 21) as [Hs|Hl].
  { rewrite count_fingers_short in Hc by exact Hs. discriminate Hc. }
  destruct (count_fingers_long lm h Hl) as [E _]. rewrite E in Hc.
  destruct (count_fingers_eq (firstn 21 lm) h) as [palm [_ Hf]];
    [rewrite length_firstn; lia|].
  cbv zeta in Hf. rewrite Hf in Hc. injection Hc as <- <-.
  split; [reflexivity|]. rewrite sum_bool_count. split; [reflexivity|].
  split; [lia|].
  apply (Z.le_trans _ (Z.of_nat (length
    [match h, palm with
     | Left, true => (x (pt (firstn 21 lm) 4) >? x (pt (firstn 21 lm) 3))%float
     | Left, false => (x (pt (firstn 21 lm) 4) <? x (pt (firstn 21 lm) 3))%float
     | Right, true => (x (pt (firstn 21 lm) 4) <? x (pt (firstn 21 lm) 3))%float
     | Right, false => (x (pt (firstn 21 lm) 4) >? x (pt (firstn 21 lm) 3))%float
     end;
     (y (pt (firstn 21 lm) 8) <? y (pt (firstn 21 lm) 6))%float;
     (y (pt (firstn 21 lm) 12) <? y (pt (firstn 21 lm) 10))%float;
     (y (pt (firstn 21 lm) 16) <? y (pt (firstn 21 lm) 14))%float;
     (y (pt (firstn 21 lm) 20) <? y (pt (firstn 21 lm) 18))%float]))).
  - apply Nat2Z.inj_le. apply count_occ_bound.
  - cbn [length]. lia.
Qed.

Section Records.

Variable norm : vec3 -> float.

(** The record one detection adds. *)
Lemma process_hand_record (d d' : HandDetector) (hi hi' : list hand_info)
  (mm mm' : list string) (lm : landmarks) (h : hand_type) :
  process_hand norm (d, hi, mm) (lm, h) = Ret (d', hi', mm') ->
  exists info,
    hi' = hi ++ [info] /\
    hi_hand_type info = h /\
    hi_landmarks info = lm /\
    hi_dorsal_side info = negb (hi_palm_showing info) /\
    is_palm_showing lm h = Ret (hi_palm_showing info) /\
    count_fingers lm h = Ret (hi_finger_count info, hi_finger_statuses info) /\
    hi_motion_status info = get h (hand_motion_status d').
Proof.
  unfold process_hand.
  destruct (count_fingers lm h) as [[n st]|]; [|discriminate].
  destruct (is_palm_showing lm h) as [palm|]; [|discriminate].
  cbn [bind].
  destruct (track_hand_motion norm d lm h palm) as [[d1 r]|];
    [|discriminate].
  cbn [bind]. intros Hrun. injection Hrun as <- <- _.
  eexists. split; [reflexivity|]. repeat split.
Qed.

Lemma process_hands_records (results : list (landmarks * hand_type)) :
  forall (d d' : HandDetector) (hi hi' : list hand_info)
         (mm mm' : list string),
  process_hands norm (d, hi, mm) results = Ret (d', hi', mm') ->
  exists new,
    hi' = hi ++ new /\
    map (fun info => (hi_landmarks info, hi_hand_type info)) new = results /\
    Forall record_ok new.
Proof.
  induction results as [|[lm h] rest IH]; intros d d' hi hi' mm mm' Hrun.
  - cbn in Hrun. injection Hrun as _ <- _. exists [].
    split; [symmetry; apply app_nil_r|]. split; [reflexivity|constructor].
  - cbn [process_hands] in Hrun.
    destruct (process_hand norm (d, hi, mm) (lm, h)) as [[[d1 hi1] mm1]|]
      eqn:E1; [|discriminate].
    cbn [bind] in Hrun.
    apply process_hand_record in E1.
    destruct E1 as [info [-> [Hh [Hl [Hd [Hp [Hc _]]]]]]].
    apply IH in Hrun. destruct Hrun as [new [-> [Hmap Hall]]].
    exists (info :: new). split; [rewrite <- app_assoc; reflexivity|].
    split; [cbn [map]; rewrite Hl, Hh, Hmap; reflexivity|].
    constructor; [|exact Hall].
    unfold record_ok. rewrite Hl, Hh.
    destruct (count_fingers_returns _ _ _ _ Hc) as [H5 [Hn Hb]].
    repeat split; try assumption; lia.
Qed.

End Records.

(** X6. A frame that returns gives one record per detection, in the order
    of the detections, each carrying the detection's own landmarks and
    label, the answer of [is_palm_showing], its negation as dorsal side,
    and the five statuses of [count_fingers] with their true-count, which
    lies between 0 and 5; a frame without detections gives no record.
    When the frame holds a single detection its record shows the motion
    status the detector is left with. *)
Theorem hands_info_one_record_per_detection (norm : vec3 -> float)
  (d d' : HandDetector) (results : list (landmarks * hand_type))
  (hi : list hand_info) (msgs : list string) :
  detect_hands norm d results = Ret (d', hi, msgs) ->
  map (fun info => (hi_landmarks info, hi_hand_type info)) hi = results /\
  Forall (fun info =>
            hi_dorsal_side info = negb (hi_palm_showing info) /\
            is_palm_showing (hi_landmarks info) (hi_hand_type info)
            = Ret (hi_palm_showing info) /\
            count_fingers (hi_landmarks info) (hi_hand_type info)
            = Ret (hi_finger_count info, hi_finger_statuses info) /\
            length (hi_finger_statuses info) = 5%nat /\
            hi_finger_count info
            = Z.of_nat (count_occ bool_dec (hi_finger_statuses info) true) /\
            0 <= hi_finger_count info <= 5) hi /\
  (forall lm h, results = [(lm, h)] ->
     exists info, hi = [info] /\
                  hi_motion_status info = get h (hand_motion_status d')).
Proof.
  unfold detect_hands. intros Hrun.
  destruct results as [|det rest].
  - cbn [bind] in Hrun. injection Hrun as _ <- _.
    split; [reflexivity|]. split; [constructor|]. discriminate.
  - destruct (process_hands norm (d, [], []) (det :: rest))
      as [[[d1 hi1] mm1]|] eqn:E; [|discriminate].
    cbn [bind] in Hrun. injection Hrun as <- <- _.
    destruct (process_hands_records norm _ _ _ _ _ _ _ E)
      as [new [Hhi [Hmap Hall]]].
    cbn [app] in Hhi. subst hi1.
    split; [exact Hmap|]. split; [exact Hall|].
    intros lm h Hres. injection Hres as -> ->.
    cbn [process_hands] in E.
    destruct (process_hand norm (d, [], []) (lm, h)) as [[[d2 hi2] mm2]|]
      eqn:E1; [|discriminate].
    cbn [bind] in E. injection E as -> -> _.
    apply process_hand_record in E1.
    destruct E1 as [info [Hn [_ [_ [_ [_ [_ Hs]]]]]]].
    cbn [app] in Hn. exists info. split; [exact Hn|].
    destruct (tick_both d1 h) as [_ [_ Hst]]. cbv zeta in Hst.
    cbn [fold_left] in Hst |- *. rewrite Hst. exact Hs.
Qed.

Lemma hands_info_one_record_per_detection_witness :
  exists d' info msgs,
    detect_hands plain_norm init [(palm_hand, Right)] = Ret (d', [info], msgs) /\
    hi_hand_type info = Right /\ hi_landmarks info = palm_hand /\
    hi_palm_showing info = true /\ hi_dorsal_side info = false.
Proof.
  destruct (detect_hands_total plain_norm init [(palm_hand, Right)])
    as [d' [hi [msgs Hrun]]]; [repeat constructor|].
  destruct (hands_info_one_record_per_detection plain_norm _ _ _ _ _ Hrun)
    as [Hmap [Hall Hone]].
  destruct (Hone palm_hand Right eq_refl) as [info [-> _]].
  exists d', info, msgs. split; [exact Hrun|].
  cbn [map] in Hmap. injection Hmap as Hl Hh.
  inversion Hall as [|? ? [Hd [Hp _]] _]; subst.
  rewrite Hl, Hh in Hp.
  assert (Hpalm : hi_palm_showing info = true)
    by (vm_compute in Hp; injection Hp as E; exact (eq_sym E)).
  split; [exact Hh|]. split; [exact Hl|]. split; [exact Hpalm|].
  rewrite Hd, Hpalm. reflexivity.
Defined.

(** ** The messages of a frame *)

Section Messages.

Variable norm : vec3 -> float.

Lemma process_hands_messages (results : list (landmarks * hand_type)) :
  forall (d d' : HandDetector) (hi hi' : list hand_info)
         (mm mm' : list string),
  process_hands norm (d, hi, mm) results = Ret (d', hi', mm') ->
  exists new,
    mm' = mm ++ new /\
    Forall (fun m => exists k dir v,
                       m = flip_message k dir v /\ In k (map snd results))
           new /\
    forall h,
      (length (filter (is_flip_for h) new) <= 1)%nat /\
      (0 < get h (flip_cooldown d) -> filter (is_flip_for h) new = []).
Proof.
  induction results as [|[lm k] rest IH]; intros d d' hi hi' mm mm' Hrun.
  - cbn in Hrun. injection Hrun as _ _ <-. exists [].
    split; [symmetry; apply app_nil_r|]. split; [constructor|].
    intros h. split; [cbn; lia|reflexivity].
  - cbn [process_hands] in Hrun.
    destruct (process_hand norm (d, hi, mm) (lm, k)) as [[[d1 hi1] mm1]|]
      eqn:E1; [|discriminate].
    cbn [bind] in Hrun.
    apply process_hand_inv in E1.
    destruct E1 as [r [[_ [Hoth [Hblock Hr]]] ->]].
    apply IH in Hrun. destruct Hrun as [new [-> [Hall Hcount]]].
    eexists. split; [symmetry; apply app_assoc|].
    split.
    + apply Forall_app. split.
      * destruct r as [msg|]; [|constructor].
        destruct Hr as [[dir [v ->]] _]. constructor; [|constructor].
        exists k, dir, v. split; [reflexivity|]. left. reflexivity.
      * eapply Forall_impl; [|exact Hall].
        intros m [k' [dir [v [-> Hin]]]]. exists k', dir, v.
        split; [reflexivity|]. right. exact Hin.
    + intros h. rewrite filter_app, length_app.
      destruct (Hcount h) as [Hle Hzero].
      pose proof (eq_refl : cooldown_frames = 15) as Hcf.
      destruct (hand_eq_dec h k) as [->|Hne].
      * destruct r as [msg|].
        -- destruct Hr as [[dir [v ->]] Hc].
           rewrite Hzero by lia. cbn [filter].
           split; [destruct (is_flip_for k _); cbn; lia|].
           intros Hpos. destruct (Hblock Hpos) as [Hn _]. discriminate Hn.
        -- cbn [filter length app]. split; [exact Hle|].
           intros Hpos. apply Hzero. lia.
      * destruct (Hoth h Hne) as [_ [_ Hc]].
        assert (Hno : filter (is_flip_for h)
                        match r with Some msg => [msg] | None => [] end = []).
        { destruct r as [msg|]; [|reflexivity].
          destruct Hr as [[dir [v ->]] _]. cbn [filter].
          destruct (is_flip_for h (flip_message k dir v)) eqn:E;
            [|reflexivity].
          apply is_flip_for_message in E. congruence. }
        rewrite Hno. cbn [length app]. split; [exact Hle|].
        intros Hpos. apply Hzero. lia.
Qed.

Lemma flip_messages_split (msgs : list string) :
  Forall (fun m => exists k dir v, m = flip_message k dir v) msgs ->
  length msgs = (length (filter (is_flip_for Left) msgs)
                 + length (filter (is_flip_for Right) msgs))%nat.
Proof.
  induction 1 as [|m msgs [k [dir [v ->]]] _ IH]; [reflexivity|].
  cbn [filter length].
  destruct k.
  - replace (is_flip_for Left (flip_message Left dir v)) with true
      by (symmetry; apply is_flip_for_message; reflexivity).
    destruct (is_flip_for Right (flip_message Left dir v)) eqn:E.
    + apply is_flip_for_message in E. discriminate E.
    + cbn [length]. lia.
  - replace (is_flip_for Right (flip_message Right dir v)) with true
      by (symmetry; apply is_flip_for_message; reflexivity).
    destruct (is_flip_for Left (flip_message Right dir v)) eqn:E.
    + apply is_flip_for_message in E. discriminate E.
    + cbn [length]. lia.
Qed.

End Messages.

(** X7. Every message of a frame is the flip message of a hand detected
    in that frame; a frame never emits two messages for the same hand,
    however often the hand is detected in it, so it emits at most two
    messages; a hand whose cooldown is positive when the frame starts gets
    none, and a frame without detections emits nothing. *)
Theorem frame_messages (norm : vec3 -> float) (d d' : HandDetector)
  (results : list (landmarks * hand_type)) (hi : list hand_info)
  (msgs : list string) :
  detect_hands norm d results = Ret (d', hi, msgs) ->
  Forall (fun m => exists h dir v,
                     m = flip_message h dir v /\ In h (map snd results))
         msgs /\
  (forall h, (length (filter (is_flip_for h) msgs) <= 1)%nat) /\
  (length msgs <= 2)%nat /\
  (forall h, 0 < get h (flip_cooldown d) ->
             filter (is_flip_for h) msgs = []) /\
  (results = [] -> msgs = []).
Proof.
  unfold detect_hands. intros Hrun.
  destruct results as [|det rest].
  - cbn [bind] in Hrun. injection Hrun as _ _ <-.
    split; [constructor|]. split; [intros h; cbn; lia|].
    split; [cbn; lia|]. split; reflexivity.
  - destruct (process_hands norm (d, [], []) (det :: rest))
      as [[[d1 hi1] mm1]|] eqn:E; [|discriminate].
    cbn [bind] in Hrun. injection Hrun as _ _ <-.
    destruct (process_hands_messages norm _ _ _ _ _ _ _ E)
      as [new [Hmm [Hall Hcount]]].
    cbn [app] in Hmm. subst mm1.
    split; [exact Hall|]. split; [intros h; apply Hcount|].
    split.
    + rewrite flip_messages_split.
      * pose proof (proj1 (Hcount Left)). pose proof (proj1 (Hcount Right)).
        lia.
      * eapply Forall_impl; [|exact Hall].
        intros m [k [dir [v [-> _]]]]. eauto.
    + split; [intros h; apply Hcount|discriminate].
Qed.

Lemma frame_messages_witness :
  exists d' hi msgs,
    detect_hands plain_norm (state_of (run plain_norm init (turning_frames 0)))
                 [(back_hand, Right); (palm_hand, Right);
                  (back_hand, Right)] = Ret (d', hi, msgs) /\
    (length msgs <= 2)%nat /\
    (length (filter (is_flip_for Right) msgs) <= 1)%nat.
Proof.
  destruct (detect_hands_total plain_norm
              (state_of (run plain_norm init (turning_frames 0)))
              [(back_hand, Right); (palm_hand, Right); (back_hand, Right)])
    as [d' [hi [msgs Hrun]]]; [repeat constructor|].
  exists d', hi, msgs. split; [exact Hrun|].
  destruct (frame_messages plain_norm _ _ _ _ _ Hrun) as [_ [H1 [H2 _]]].
  split; [exact H2|apply H1].
Defined.

(** ** What holds in every state the detector reaches *)

Lemma deque_append_length_ge {A : Type} (dq : list A) (s : A) :
  (length (deque_append dq s) < 5)%nat -> (length dq < 5)%nat.
Proof.
  unfold deque_append, maxlen.
  destruct (10 <=? length dq)%nat eqn:E; rewrite length_app; cbn [length].
  - apply Nat.leb_le in E. destruct dq; cbn [length tl] in *; lia.
  - lia.
Qed.

Section Reachable.

Variable norm : vec3 -> float.

Lemma detect_flipping_motion_status (d d' : HandDetector) (h : hand_type)
  (r : option string) :
  detect_flipping_motion norm d h = Ret (d', r) ->
  get h (hand_motion_status d') = get h (hand_motion_status d) \/
  (5 <= len (get h (hand_history d)) /\
   allowed_status (get h (hand_motion_status d'))).
Proof.
  intros Hrun.
  destruct (Z.lt_ge_cases 0 (get h (flip_cooldown d))) as [Hpos|Hcd].
  { rewrite detect_flipping_motion_blocked in Hrun by exact Hpos.
    injection Hrun as <- _. left. reflexivity. }
  destruct (Z.lt_ge_cases (len (get h (hand_history d))) 5) as [Hs|Hl].
  { rewrite detect_flipping_motion_short in Hrun by exact Hs.
    injection Hrun as <- _. left. reflexivity. }
  rewrite detect_flipping_motion_eq in Hrun by lia.
  right. split; [lia|].
  destruct (flip_condition (get h (hand_history d))).
  - unfold flipped in Hrun. injection Hrun as <- _.
    cbn [hand_motion_status set_cooldown set_status]. rewrite get_set_same.
    unfold flipping_status, flip_direction_of, allowed_status.
    destruct (d_is_palm_showing _); cbn; tauto.
  - injection Hrun as <- _. cbn [hand_motion_status set_status].
    rewrite get_set_same. unfold motion_label, allowed_status.
    destruct (wrist_movement_of norm _ >? 0.05)%float; [tauto|].
    destruct (abs _ >? 0.01)%float; tauto.
Qed.

Lemma track_hand_motion_status_inv (d d' : HandDetector) (lm : landmarks)
  (h : hand_type) (palm : bool) (r : option string) :
  track_hand_motion norm d lm h palm = Ret (d', r) ->
  (forall k, status_inv d k) -> forall k, status_inv d' k.
Proof.
  intros Hrun Hinv k.
  pose proof (track_hand_motion_step norm _ _ _ _ _ _ Hrun)
    as [[s Hs] [Hoth _]].
  destruct (hand_eq_dec k h) as [->|Hne].
  2:{ destruct (Hoth k Hne) as [Hh [Hst _]]. unfold status_inv.
      rewrite Hh, Hst. apply Hinv. }
  revert Hrun. unfold track_hand_motion.
  destruct (getitem lm 0) as [wrist|]; [|discriminate].
  destruct (getitem lm 5) as [index_mcp|]; [|discriminate].
  destruct (getitem lm 17) as [pinky_mcp|]; [|discriminate].
  destruct (getitem lm 12) as [middle_tip|]; [|discriminate].
  cbn [bind]. cbv zeta.
  match goal with
  | |- context [set_history h ?v d] => set (d0 := set_history h v d)
  end.
  assert (Hst0 : hand_motion_status d0 = hand_motion_status d)
    by reflexivity.
  assert (Hlen : len (get h (hand_history d0)) < 5 ->
                 len (get h (hand_history d)) < 5).
  { unfold d0. cbn [hand_history set_history]. rewrite get_set_same.
    unfold len. intros Hl.
    match type of Hl with
    | Z.of_nat (length (deque_append ?l ?x)) < 5 =>
        assert (Hn : (length (deque_append l x) < 5)%nat) by lia;
        apply deque_append_length_ge in Hn
    end.
    lia. }
  destruct (Hinv h) as [Hal Hunk].
  destruct (len (get h (hand_history d0)) <? 5) eqn:E.
  - intros Hrun. injection Hrun as <- _. apply Z.ltb_lt in E.
    unfold status_inv. rewrite Hst0. split; [exact Hal|].
    intros _. apply Hunk. apply Hlen. exact E.
  - intros Hrun. apply Z.ltb_ge in E.
    pose proof (detect_flipping_motion_effect norm _ _ _ _ Hrun)
      as [Hhist _].
    destruct (detect_flipping_motion_status _ _ _ _ Hrun) as [Hsame|[_ Ha]].
    + unfold status_inv. rewrite Hsame, Hhist, Hst0.
      split; [exact Hal|]. intros Hl. lia.
    + unfold status_inv. rewrite Hhist. split; [exact Ha|].
      intros Hl. lia.
Qed.

Lemma process_hands_status_inv (results : list (landmarks * hand_type)) :
  forall (d d' : HandDetector) (hi hi' : list hand_info)
         (mm mm' : list string),
  process_hands norm (d, hi, mm) results = Ret (d', hi', mm') ->
  (forall k, status_inv d k) -> forall k, status_inv d' k.
Proof.
  induction results as [|[lm h] rest IH]; intros d d' hi hi' mm mm' Hrun Hinv.
  - cbn in Hrun. injection Hrun as <- _ _. exact Hinv.
  - cbn [process_hands] in Hrun.
    destruct (process_hand norm (d, hi, mm) (lm, h)) as [[[d1 hi1] mm1]|]
      eqn:E1; [|discriminate].
    cbn [bind] in Hrun. apply (IH _ _ _ _ _ _ Hrun).
    revert E1. unfold process_hand.
    destruct (count_fingers lm h) as [[n st]|]; [|discriminate].
    destruct (is_palm_showing lm h) as [palm|]; [|discriminate].
    cbn [bind].
    destruct (track_hand_motion norm d lm h palm) as [[d2 r]|] eqn:Et;
      [|discriminate].
    cbn [bind]. intros E1. injection E1 as <- _ _.
    apply (track_hand_motion_status_inv _ _ _ _ _ _ Et Hinv).
Qed.

Lemma detect_hands_status_inv (d d' : HandDetector)
  (results : list (landmarks * hand_type)) (hi : list hand_info)
  (msgs : list string) :
  detect_hands norm d results = Ret (d', hi, msgs) ->
  (forall k, status_inv d k) -> forall k, status_inv d' k.
Proof.
  unfold detect_hands. intros Hrun Hinv k.
  destruct results as [|det rest].
  - cbn [bind] in Hrun. injection Hrun as <- _ _.
    destruct (tick_both (fold_left reset_hand [Left; Right] d) k)
      as [_ [Hh Hs]].
    destruct (reset_both d k) as [Hr [Hst _]].
    cbv zeta in Hh, Hs, Hr, Hst. cbn [fold_left] in Hh, Hs, Hr, Hst |- *.
    unfold status_inv. rewrite Hh, Hs, Hr, Hst.
    destruct (Hinv k) as [Hal Hunk].
    destruct (0 <? len (get k (hand_history d))) eqn:E.
    + split; [left; reflexivity|reflexivity].
    + apply Z.ltb_ge in E. split; [exact Hal|]. intros _. apply Hunk. lia.
  - destruct (process_hands norm (d, [], []) (det :: rest))
      as [[[d1 hi1] mm1]|] eqn:E; [|discriminate].
    cbn [bind] in Hrun. injection Hrun as <- _ _.
    destruct (tick_both d1 k) as [_ [Hh Hs]]. cbv zeta in Hh, Hs.
    cbn [fold_left] in Hh, Hs |- *.
    unfold status_inv. rewrite Hh, Hs.
    apply (process_hands_status_inv _ _ _ _ _ _ _ E Hinv k).
Qed.

Lemma run_invariant (frames : list (list (landmarks * hand_type))) :
  forall (d d' : HandDetector) (out : list (list string)),
  run norm d frames = Ret (d', out) ->
  (forall k, status_inv d k /\ 0 <= get k (flip_cooldown d) <= 14) ->
  forall k, status_inv d' k /\ 0 <= get k (flip_cooldown d') <= 14.
Proof.
  pose proof (eq_refl : cooldown_frames = 15) as Hcf.
  induction frames as [|f rest IH]; intros d d' out Hrun Hinv.
  - cbn in Hrun. injection Hrun as <- _. exact Hinv.
  - cbn [run] in Hrun.
    destruct (detect_hands norm d f) as [[[d1 hi] msgs]|] eqn:E1;
      [|discriminate].
    cbn [bind] in Hrun.
    destruct (run norm d1 rest) as [[d2 out2]|] eqn:E2; [|discriminate].
    cbn [bind] in Hrun. injection Hrun as <- _.
    apply (IH _ _ _ E2). intros k. split.
    + apply (detect_hands_status_inv _ _ _ _ _ E1).
      intros j. apply Hinv.
    + destruct (detect_hands_cooldown norm _ _ _ _ _ k E1) as [Hp Hz].
      destruct (Hinv k) as [_ Hb].
      destruct (Z.lt_ge_cases 0 (get k (flip_cooldown d))) as [Hpos|Hle].
      * destruct (Hp Hpos) as [Hc _]. lia.
      * destruct (Hz Hle) as [[Hc _]|[Hc _]]; lia.
Qed.

End Reachable.

(** X8. In every state reached from a new detector by running frames, the
    motion status of each hand is one of Unknown, Stable, Moving,
    Rotating, "Flipping: Palm to Back" and "Flipping: Back to Palm"; it is
    Unknown as long as the hand's window holds fewer than five samples;
    and between frames the cooldown lies between 0 and 14. *)
Theorem reachable_state_invariant (norm : vec3 -> float)
  (frames : list (list (landmarks * hand_type))) (d' : HandDetector)
  (out : list (list string)) (h : hand_type) :
  run norm init frames = Ret (d', out) ->
  allowed_status (get h (hand_motion_status d')) /\
  (len (get h (hand_history d')) < 5 ->
   get h (hand_motion_status d') = "Unknown"%string) /\
  0 <= get h (flip_cooldown d') <= 14.
Proof.
  intros Hrun.
  destruct (run_invariant norm frames init d' out Hrun) with (k := h)
    as [[Hal Hunk] Hc].
  - intros k. split; [split|].
    + left. destruct k; reflexivity.
    + intros _. destruct k; reflexivity.
    + destruct k; cbn; lia.
  - split; [exact Hal|]. split; [exact Hunk|exact Hc].
Qed.

Lemma reachable_state_invariant_witness :
  exists d' out,
    run plain_norm init (turning_frames 3) = Ret (d', out) /\
    allowed_status (get Right (hand_motion_status d')) /\
    0 <= get Right (flip_cooldown d') <= 14.
Proof.
  destruct (run_total plain_norm (turning_frames 3) ltac:(repeat constructor)
              init) as [d' [out Hrun]].
  exists d', out. split; [exact Hrun|].
  destruct (reachable_state_invariant plain_norm _ _ _ Right Hrun)
    as [Hal [_ Hc]].
  split; [exact Hal|exact Hc].
Defined.

(** ** The samples in the windows *)

(** No number lies on both sides of 0. *)
Lemma not_both_sides (v : float) :
  (v <? 0)%float = true -> (v >? 0)%float = true -> False.
Proof.
  unfold gtb. rewrite ltb_zero_r, ltb_zero_l.
  destruct (Prim2SF v) as [s|s| |s m e]; try destruct s; discriminate.
Qed.

(** The sample built from a cross product [c] and a palm flag read off
    [c] by the rule of hand [h] is consistent, normalised or not. *)
Lemma stored_normal_consistent (h : hand_type) (c : vec3) (n : float)
  (w m : vec3) :
  sample_consistent h
    (Sample w (if (n >? 0)%float then vscale_inv c n else c)
            (match h with
             | Left => (vz c <? 0)%float
             | Right => (vz c >? 0)%float
             end) m).
Proof.
  unfold sample_consistent. cbn [d_is_palm_showing d_normal].
  pose proof (not_both_sides (vz c)) as Hb.
  assert (Hs : ((vz (if (n >? 0)%float then vscale_inv c n else c) >? 0)%float
                = true -> (vz c >? 0)%float = true) /\
               ((vz (if (n >? 0)%float then vscale_inv c n else c) <? 0)%float
                = true -> (vz c <? 0)%float = true)).
  { destruct (n >? 0)%float eqn:En; [|tauto].
    cbn [vscale_inv vz]. apply div_pos_sign. exact En. }
  destruct Hs as [Hp Hm].
  set (nz := vz (if (n >? 0)%float then vscale_inv c n else c)) in *.
  destruct h.
  - destruct (vz c <? 0)%float eqn:E.
    + destruct (nz >? 0)%float; [exfalso; auto|reflexivity].
    + destruct (nz <? 0)%float; [exfalso|reflexivity].
      specialize (Hm eq_refl). discriminate Hm.
  - destruct (vz c >? 0)%float eqn:E.
    + destruct (nz <? 0)%float; [exfalso; auto|reflexivity].
    + destruct (nz >? 0)%float; [exfalso|reflexivity].
      specialize (Hp eq_refl). discriminate Hp.
Qed.

Lemma in_deque_append {A : Type} (dq : list A) (v s : A) :
  In s (deque_append dq v) -> In s dq \/ s = v.
Proof.
  unfold deque_append. destruct (maxlen <=? length dq)%nat;
    intros H; apply in_app_or in H; destruct H as [H|[H|[]]];
    try (right; congruence); left; [|exact H].
  destruct dq; [destruct H|right; exact H].
Qed.

Section Samples.

Variable norm : vec3 -> float.

Lemma process_hand_sample (d d' : HandDetector) (hi hi' : list hand_info)
  (mm mm' : list string) (lm : landmarks) (h : hand_type) :
  process_hand norm (d, hi, mm) (lm, h) = Ret (d', hi', mm') ->
  exists s,
    get h (hand_history d') = deque_append (get h (hand_history d)) s /\
    sample_consistent h s /\
    forall k, k <> h -> get k (hand_history d') = get k (hand_history d).
Proof.
  unfold process_hand.
  destruct (count_fingers lm h) as [[n st]|]; [|discriminate].
  unfold is_palm_showing, track_hand_motion.
  destruct (getitem lm 0) as [wrist|]; [|discriminate].
  destruct (getitem lm 5) as [index_mcp|]; [|discriminate].
  destruct (getitem lm 17) as [pinky_mcp|]; [|discriminate].
  cbn [bind]. cbv zeta.
  set (c := palm_normal wrist index_mcp pinky_mcp).
  set (palm := match h with
               | Left => (vz c <? 0)%float
               | Right => (vz c >? 0)%float
               end).
  replace (match h with
           | Left => Ret (vz c <? 0)%float
           | Right => Ret (vz c >? 0)%float
           end) with (Ret palm) by (destruct h; reflexivity).
  cbn [bind].
  destruct (getitem lm 12) as [middle_tip|]; [|discriminate].
  cbn [bind].
  match goal with
  | |- context [set_history h (deque_append _ ?s) d] =>
      set (cur := s); set (d0 := set_history h (deque_append _ cur) d)
  end.
  assert (Hcur : sample_consistent h cur).
  { unfold cur, palm. apply stored_normal_consistent. }
  assert (Hh : get h (hand_history d0)
               = deque_append (get h (hand_history d)) cur).
  { unfold d0. cbn [hand_history set_history]. apply get_set_same. }
  assert (Ho : forall k, k <> h ->
               get k (hand_history d0) = get k (hand_history d)).
  { intros k Hk. unfold d0. cbn [hand_history set_history].
    apply get_set_other. exact Hk. }
  destruct (len (get h (hand_history d0)) <? 5).
  - cbn [bind]. intros Hrun. injection Hrun as <- _ _. eauto.
  - destruct (detect_flipping_motion norm d0 h) as [[d1 r]|] eqn:Ed;
      [|discriminate].
    cbn [bind]. intros Hrun. injection Hrun as <- _ _.
    apply detect_flipping_motion_effect in Ed. destruct Ed as [Hhist _].
    rewrite Hhist. eauto.
Qed.

Lemma process_hands_samples (results : list (landmarks * hand_type)) :
  forall (d d' : HandDetector) (hi hi' : list hand_info)
         (mm mm' : list string),
  process_hands norm (d, hi, mm) results = Ret (d', hi', mm') ->
  (forall k s, In s (get k (hand_history d)) -> sample_consistent k s) ->
  forall k s, In s (get k (hand_history d')) -> sample_consistent k s.
Proof.
  induction results as [|[lm h] rest IH]; intros d d' hi hi' mm mm' Hrun Hinv.
  - cbn in Hrun. injection Hrun as <- _ _. exact Hinv.
  - cbn [process_hands] in Hrun.
    destruct (process_hand norm (d, hi, mm) (lm, h)) as [[[d1 hi1] mm1]|]
      eqn:E1; [|discriminate].
    cbn [bind] in Hrun. apply (IH _ _ _ _ _ _ Hrun).
    apply process_hand_sample in E1. destruct E1 as [s0 [Hs [Hc Ho]]].
    intros k s Hin. destruct (hand_eq_dec k h) as [->|Hne].
    + rewrite Hs in Hin. apply in_deque_append in Hin.
      destruct Hin as [Hin| ->]; [apply Hinv; exact Hin|exact Hc].
    + rewrite (Ho k Hne) in Hin. apply Hinv. exact Hin.
Qed.

Lemma run_samples (frames : list (list (landmarks * hand_type))) :
  forall (d d' : HandDetector) (out : list (list string)),
  run norm d frames = Ret (d', out) ->
  (forall k s, In s (get k (hand_history d)) -> sample_consistent k s) ->
  forall k s, In s (get k (hand_history d')) -> sample_consistent k s.
Proof.
  induction frames as [|f rest IH]; intros d d' out Hrun Hinv.
  - cbn in Hrun. injection Hrun as <- _. exact Hinv.
  - cbn [run] in Hrun.
    destruct (detect_hands norm d f) as [[[d1 hi] msgs]|] eqn:E1;
      [|discriminate].
    cbn [bind] in Hrun.
    destruct (run norm d1 rest) as [[d2 out2]|] eqn:E2; [|discriminate].
    cbn [bind] in Hrun. injection Hrun as <- _.
    apply (IH _ _ _ E2). intros k s.
    unfold detect_hands in E1. destruct f as [|det more].
    + cbn [bind] in E1. injection E1 as <- _ _.
      destruct (tick_both (fold_left reset_hand [Left; Right] d) k)
        as [_ [Hh _]].
      destruct (reset_both d k) as [Hr _]. cbv zeta in Hh, Hr.
      cbn [fold_left] in Hh, Hr |- *. rewrite Hh, Hr. intros [].
    + destruct (process_hands norm (d, [], []) (det :: more))
        as [[[d0 hi0] mm0]|] eqn:E; [|discriminate].
      cbn [bind] in E1. injection E1 as <- _ _.
      destruct (tick_both d0 k) as [_ [Hh _]]. cbv zeta in Hh.
      cbn [fold_left] in Hh |- *. rewrite Hh.
      apply (process_hands_samples _ _ _ _ _ _ _ E Hinv).
Qed.

End Samples.

(** Normalising can lose the sign: on [faint_hand] the Right hand shows
    its palm, and the z stored with the sample is zero. *)
Example underflow_drops_the_sign :
  is_palm_showing faint_hand Right = Ret true /\
  exists d' s,
    track_hand_motion plain_norm init faint_hand Right true = Ret (d', None) /\
    get Right (hand_history d') = [s] /\
    is_zero (vz (d_normal s)).
Proof.
  split; [reflexivity|].
  do 2 eexists. split; [reflexivity|]. split; reflexivity.
Qed.

(** X9. No sample in a window of a state reached from a new detector
    contradicts its palm flag: for the Right hand a stored normal with
    z > 0 comes with the flag set and one with z < 0 with the flag clear,
    for the Left hand the other way round.  Normalising the cross product
    never moves its z across 0. *)
Theorem window_samples_consistent (norm : vec3 -> float)
  (frames : list (list (landmarks * hand_type))) (d' : HandDetector)
  (out : list (list string)) (h : hand_type) (s : sample) :
  run norm init frames = Ret (d', out) ->
  In s (get h (hand_history d')) ->
  let nz := vz (d_normal s) in
  match h with
  | Right => ((nz > 0)%float -> d_is_palm_showing s = true) /\
             ((nz < 0)%float -> d_is_palm_showing s = false)
  | Left => ((nz < 0)%float -> d_is_palm_showing s = true) /\
            ((nz > 0)%float -> d_is_palm_showing s = false)
  end.
Proof.
  intros Hrun Hin nz.
  assert (Hc : sample_consistent h s).
  { apply (run_samples norm frames init d' out Hrun); [|exact Hin].
    intros k s0. destruct k; intros []. }
  unfold sample_consistent in Hc. cbv zeta in Hc. fold nz in Hc.
  unfold flt, fgt.
  destruct h, (d_is_palm_showing s); split; intros H; try reflexivity;
    congruence.
Qed.

Lemma window_samples_consistent_witness :
  exists d' out s,
    run plain_norm init [[(back_hand, Right)]] = Ret (d', out) /\
    get Right (hand_history d') = [s] /\
    (vz (d_normal s) < 0)%float /\ d_is_palm_showing s = false.
Proof.
  destruct (run_total plain_norm [[(back_hand, Right)]]
              ltac:(repeat constructor) init) as [d' [out Hrun]].
  assert (Hs : exists s, get Right (hand_history d') = [s] /\
                         (vz (d_normal s) < 0)%float).
  { vm_compute in Hrun. injection Hrun as <- _. eexists.
    split; reflexivity. }
  destruct Hs as [s [Hh Hz]].
  exists d', out, s. split; [exact Hrun|]. split; [exact Hh|].
  split; [exact Hz|].
  apply (window_samples_consistent plain_norm _ _ _ Right s Hrun);
    [rewrite Hh; left; reflexivity|exact Hz].
Defined.

(** ** Five samples before anything is said *)

Lemma deque_append_length_le {A : Type} (dq : list A) (s : A) :
  (length (deque_append dq s) <= S (length dq))%nat.
Proof.
  unfold deque_append. destruct (maxlen <=? length dq)%nat;
    rewrite length_app; cbn [length]; [|lia].
  destruct dq; cbn [length tl]; lia.
Qed.

Lemma hand_eqb_eq (h k : hand_type) : hand_eqb h k = true <-> h = k.
Proof. destruct h, k; cbn; split; intros H; congruence. Qed.

Section WarmUp.

Variable norm : vec3 -> float.

Lemma track_hand_motion_message_needs_five (d d' : HandDetector)
  (lm : landmarks) (h : hand_type) (palm : bool) (msg : string) :
  track_hand_motion norm d lm h palm = Ret (d', Some msg) ->
  5 <= len (get h (hand_history d')).
Proof.
  unfold track_hand_motion.
  destruct (getitem lm 0) as [wrist|]; [|discriminate].
  destruct (getitem lm 5) as [index_mcp|]; [|discriminate].
  destruct (getitem lm 17) as [pinky_mcp|]; [|discriminate].
  destruct (getitem lm 12) as [middle_tip|]; [|discriminate].
  cbn [bind]. cbv zeta.
  match goal with
  | |- context [set_history h ?v d] => set (d0 := set_history h v d)
  end.
  destruct (len (get h (hand_history d0)) <? 5) eqn:E; [discriminate|].
  apply Z.ltb_ge in E. intros Hrun.
  apply detect_flipping_motion_effect in Hrun.
  destruct Hrun as [Hhist _]. rewrite Hhist. exact E.
Qed.

(** One detection of [k]: window, status invariant, message, record. *)
Lemma process_hand_summary (d d' : HandDetector) (hi hi' : list hand_info)
  (mm mm' : list string) (lm : landmarks) (k : hand_type) :
  process_hand norm (d, hi, mm) (lm, k) = Ret (d', hi', mm') ->
  (length (get k (hand_history d')) <= S (length (get k (hand_history d))))%nat
  /\ (forall j, j <> k ->
        get j (hand_history d') = get j (hand_history d)) /\
  ((forall j, status_inv d j) -> forall j, status_inv d' j) /\
  (mm' = mm \/ 5 <= len (get k (hand_history d'))) /\
  (exists new, mm' = mm ++ new /\
               forall j, j <> k -> flip_among j new = false) /\
  exists info, hi' = hi ++ [info] /\
               hi_motion_status info = get k (hand_motion_status d').
Proof.
  intros Hrun.
  pose proof (process_hand_inv norm _ _ _ _ _ _ _ _ Hrun)
    as [r [[[s Hs] [Hoth [_ Hr]]] Hmm]].
  pose proof (process_hand_record norm _ _ _ _ _ _ _ _ Hrun)
    as [info [Hhi [_ [_ [_ [_ [_ Hst]]]]]]].
  split; [rewrite Hs; apply deque_append_length_le|].
  split; [intros j Hj; apply (Hoth j Hj)|].
  revert Hrun. unfold process_hand.
  destruct (count_fingers lm k) as [[n st]|]; [|discriminate].
  destruct (is_palm_showing lm k) as [palm|]; [|discriminate].
  cbn [bind].
  destruct (track_hand_motion norm d lm k palm) as [[d1 r1]|] eqn:Et;
    [|discriminate].
  cbn [bind]. intros Hrun. injection Hrun as <- _ Hm.
  split; [apply (track_hand_motion_status_inv norm _ _ _ _ _ _ Et)|].
  split.
  - destruct r1 as [msg|]; [|left; symmetry; exact Hm].
    right. apply (track_hand_motion_message_needs_five _ _ _ _ _ _ Et).
  - split; [|exists info; split; assumption].
    eexists. split; [exact Hmm|].
    intros j Hj. destruct r as [msg|]; [|reflexivity].
    destruct Hr as [[dir [v ->]] _]. unfold flip_among. cbn [existsb].
    destruct (is_flip_for j (flip_message k dir v)) eqn:E; [|reflexivity].
    apply is_flip_for_message in E. congruence.
Qed.

Lemma detections_of_cons (h k : hand_type) (lm : landmarks)
  (rest : list (landmarks * hand_type)) :
  detections_of h ((lm, k) :: rest)
  = ((if hand_eqb k h then 1 else 0) + detections_of h rest)%nat.
Proof.
  unfold detections_of. cbn [filter snd].
  destruct (hand_eqb k h); reflexivity.
Qed.

Lemma process_hands_warm_up (results : list (landmarks * hand_type)) :
  forall (d d' : HandDetector) (hi hi' : list hand_info)
         (mm mm' : list string),
  process_hands norm (d, hi, mm) results = Ret (d', hi', mm') ->
  (forall j, status_inv d j) ->
  (forall j, status_inv d' j) /\
  forall h,
    (length (get h (hand_history d)) + detections_of h results < 5)%nat ->
    (length (get h (hand_history d'))
     <= length (get h (hand_history d)) + detections_of h results)%nat /\
    exists new, mm' = mm ++ new /\ flip_among h new = false.
Proof.
  induction results as [|[lm k] rest IH]; intros d d' hi hi' mm mm' Hrun Hinv.
  - cbn in Hrun. injection Hrun as <- _ <-.
    split; [exact Hinv|]. intros h _. split; [lia|].
    exists []. split; [symmetry; apply app_nil_r|reflexivity].
  - cbn [process_hands] in Hrun.
    destruct (process_hand norm (d, hi, mm) (lm, k)) as [[[d1 hi1] mm1]|]
      eqn:E1; [|discriminate].
    cbn [bind] in Hrun.
    destruct (process_hand_summary _ _ _ _ _ _ _ _ E1)
      as [Hlen [Hoth [Hst [Hfive [[new1 [Hm1 Hno1]] _]]]]].
    destruct (IH _ _ _ _ _ _ Hrun (Hst Hinv)) as [Hinv' Hrest].
    split; [exact Hinv'|]. intros h Hh.
    rewrite detections_of_cons in Hh |- *.
    destruct (hand_eqb k h) eqn:Ek.
    + apply hand_eqb_eq in Ek. subst k.
      destruct (Hrest h) as [Hl [new [Hm Hno]]]; [lia|].
      split; [lia|].
      destruct Hfive as [Hsame|Hfive]; [|unfold len in Hfive; lia].
      exists new. rewrite <- Hsame. split; assumption.
    + assert (Hne : h <> k).
      { intros ->. destruct k; discriminate Ek. }
      specialize (Hrest h). rewrite (Hoth h Hne) in Hrest.
      destruct Hrest as [Hl [new [Hm Hno]]]; [lia|].
      split; [lia|].
      exists (new1 ++ new). split.
      * rewrite Hm, Hm1. symmetry. apply app_assoc.
      * rewrite flip_among_app, (Hno1 h Hne), Hno. reflexivity.
Qed.

Lemma detect_hands_warm_up (d d' : HandDetector)
  (results : list (landmarks * hand_type)) (hi : list hand_info)
  (msgs : list string) :
  detect_hands norm d results = Ret (d', hi, msgs) ->
  (forall j, status_inv d j) ->
  (forall j, status_inv d' j) /\
  forall h,
    (length (get h (hand_history d)) + detections_of h results < 5)%nat ->
    (length (get h (hand_history d'))
     <= length (get h (hand_history d)) + detections_of h results)%nat /\
    flip_among h msgs = false.
Proof.
  intros Hrun Hinv.
  split; [apply (detect_hands_status_inv norm _ _ _ _ _ Hrun Hinv)|].
  intros h Hh. unfold detect_hands in Hrun.
  destruct results as [|det rest].
  - cbn [bind] in Hrun. injection Hrun as <- _ <-.
    destruct (tick_both (fold_left reset_hand [Left; Right] d) h)
      as [_ [Hhist _]].
    destruct (reset_both d h) as [Hr _]. cbv zeta in Hhist, Hr.
    cbn [fold_left] in Hhist, Hr |- *. rewrite Hhist, Hr.
    split; [cbn [length]; lia|reflexivity].
  - destruct (process_hands norm (d, [], []) (det :: rest))
      as [[[d1 hi1] mm1]|] eqn:E; [|discriminate].
    cbn [bind] in Hrun. injection Hrun as <- _ <-.
    destruct (tick_both d1 h) as [_ [Hhist _]]. cbv zeta in Hhist.
    cbn [fold_left] in Hhist |- *. rewrite Hhist.
    destruct (process_hands_warm_up _ _ _ _ _ _ _ E Hinv) as [_ Hw].
    destruct (Hw h Hh) as [Hl [new [Hm Hno]]].
    cbn [app] in Hm. subst mm1. split; assumption.
Qed.

Lemma run_warm_up (frames : list (list (landmarks * hand_type))) :
  forall (d d' : HandDetector) (out : list (list string)) (h : hand_type),
  run norm d frames = Ret (d', out) ->
  (forall j, status_inv d j) ->
  (length (get h (hand_history d)) + detections_of h (concat frames) < 5)%nat
  ->
  Forall (fun msgs => flip_among h msgs = false) out /\
  get h (hand_motion_status d') = "Unknown"%string.
Proof.
  induction frames as [|f rest IH]; intros d d' out h Hrun Hinv Hh.
  - cbn in Hrun. injection Hrun as <- <-. split; [constructor|].
    cbn [concat] in Hh. unfold detections_of in Hh. cbn in Hh.
    apply (Hinv h). unfold len. lia.
  - cbn [run] in Hrun.
    destruct (detect_hands norm d f) as [[[d1 hi] msgs]|] eqn:E1;
      [|discriminate].
    cbn [bind] in Hrun.
    destruct (run norm d1 rest) as [[d2 out2]|] eqn:E2; [|discriminate].
    cbn [bind] in Hrun. injection Hrun as <- <-.
    cbn [concat] in Hh. unfold detections_of in Hh.
    rewrite filter_app, length_app in Hh.
    fold (detections_of h f) in Hh. fold (detections_of h (concat rest)) in Hh.
    destruct (detect_hands_warm_up _ _ _ _ _ E1 Hinv) as [Hinv1 Hw].
    destruct (Hw h) as [Hl Hno]; [lia|].
    destruct (IH _ _ _ h E2 Hinv1) as [Hall Hs]; [lia|].
    split; [constructor; assumption|exact Hs].
Qed.

End WarmUp.

(** X12. A hand that has been detected fewer than five times since the
    detector was built gets no flip message and its status is still
    Unknown, whatever its landmarks were: nothing is evaluated before five
    samples are in the window. *)
Theorem no_message_before_five_detections (norm : vec3 -> float)
  (frames : list (list (landmarks * hand_type))) (d' : HandDetector)
  (out : list (list string)) (h : hand_type) :
  run norm init frames = Ret (d', out) ->
  (detections_of h (concat frames) < 5)%nat ->
  Forall (fun msgs => flip_among h msgs = false) out /\
  get h (hand_motion_status d') = "Unknown"%string.
Proof.
  intros Hrun Hfew.
  apply (run_warm_up norm frames init d' out h Hrun).
  - intros j. split; [left; destruct j; reflexivity|].
    intros _. destruct j; reflexivity.
  - destruct h; cbn [get hand_history init at_left at_right length]; lia.
Qed.

Lemma no_message_before_five_detections_witness :
  exists d' out,
    run plain_norm init [[(palm_hand, Right)]; [(back_hand, Right)];
                     [(palm_hand, Right)]; [(back_hand, Right)]]
    = Ret (d', out) /\
    Forall (fun msgs => flip_among Right msgs = false) out /\
    get Right (hand_motion_status d') = "Unknown"%string.
Proof.
  destruct (run_total plain_norm
              [[(palm_hand, Right)]; [(back_hand, Right)];
               [(palm_hand, Right)]; [(back_hand, Right)]]
              ltac:(repeat constructor) init) as [d' [out Hrun]].
  exists d', out. split; [exact Hrun|].
  apply (no_message_before_five_detections plain_norm _ _ _ Right Hrun).
  cbn. lia.
Defined.

(** ** [main] builds its detector anew *)

Section Main.

Variable norm : vec3 -> float.

Lemma process_hands_unknown (results : list (landmarks * hand_type)) :
  forall (d d' : HandDetector) (hi hi' : list hand_info)
         (mm mm' : list string),
  process_hands norm (d, hi, mm) results = Ret (d', hi', mm') ->
  (forall j, status_inv d j) ->
  (forall j, (length (get j (hand_history d)) + length results < 5)%nat) ->
  mm' = mm /\
  exists new, hi' = hi ++ new /\
              Forall (fun info => hi_motion_status info = "Unknown"%string)
                     new.
Proof.
  induction results as [|[lm k] rest IH];
    intros d d' hi hi' mm mm' Hrun Hinv Hfew.
  - cbn in Hrun. injection Hrun as _ <- <-. split; [reflexivity|].
    exists []. split; [symmetry; apply app_nil_r|constructor].
  - cbn [process_hands] in Hrun.
    destruct (process_hand norm (d, hi, mm) (lm, k)) as [[[d1 hi1] mm1]|]
      eqn:E1; [|discriminate].
    cbn [bind] in Hrun.
    destruct (process_hand_summary norm _ _ _ _ _ _ _ _ E1)
      as [Hlen [Hoth [Hst [Hfive [_ [info [Hhi Hs]]]]]]].
    pose proof (Hfew k) as Hk. cbn [length] in Hk.
    assert (Hmm : mm1 = mm).
    { destruct Hfive as [H|H]; [exact H|unfold len in H; lia]. }
    destruct (IH _ _ _ _ _ _ Hrun (Hst Hinv)) as [Hm [new [Hn Hall]]].
    { intros j. specialize (Hfew j). cbn [length] in Hfew.
      destruct (hand_eq_dec j k) as [->|Hne]; [lia|].
      rewrite (Hoth j Hne). lia. }
    split; [congruence|].
    exists (info :: new). split.
    + rewrite Hn, Hhi, <- app_assoc. reflexivity.
    + constructor; [|exact Hall]. rewrite Hs.
      apply (Hst Hinv k). unfold len. lia.
Qed.

Lemma detect_hands_at_most_two (d d' : HandDetector)
  (results : list (landmarks * hand_type)) (hi : list hand_info)
  (msgs : list string) :
  detect_hands norm d results = Ret (d', hi, msgs) ->
  (length msgs <= 2)%nat.
Proof.
  unfold detect_hands. intros Hrun. destruct results as [|det rest].
  - cbn [bind] in Hrun. injection Hrun as _ _ <-. cbn. lia.
  - destruct (process_hands norm (d, [], []) (det :: rest))
      as [[[d1 hi1] mm1]|] eqn:E; [|discriminate].
    cbn [bind] in Hrun. injection Hrun as _ _ <-.
    destruct (process_hands_messages norm _ _ _ _ _ _ _ E)
      as [new [Hmm [Hall Hcount]]].
    cbn [app] in Hmm. subst mm1. rewrite flip_messages_split.
    + pose proof (proj1 (Hcount Left)). pose proof (proj1 (Hcount Right)).
      lia.
    + eapply Forall_impl; [|exact Hall].
      intros m [k [dir [v [-> _]]]]. eauto.
Qed.

End Main.

(** X13. [main] starts from a new detector at every call.  Its motion log
    therefore holds the frame's messages, each behind "[<time>] ", never
    more than two and never trimmed; and when the frame holds fewer than
    five detections, as with the single hand MediaPipe is asked for, the
    log is empty and every record carries the status Unknown: through
    [main] no flip is ever reported. *)
Theorem main_reports_no_motion (norm : vec3 -> float)
  (results : list (landmarks * hand_type)) (timestamp : string)
  (hands_info : list hand_info) (motion_log : list string) :
  main norm results timestamp = Ret (hands_info, motion_log) ->
  (exists d' msgs,
     detect_hands norm init results = Ret (d', hands_info, msgs) /\
     motion_log
     = map (fun msg => ("[" ++ timestamp ++ "] " ++ msg)%string) msgs /\
     (length motion_log <= 2)%nat) /\
  ((length results < 5)%nat ->
   motion_log = [] /\
   Forall (fun info => hi_motion_status info = "Unknown"%string) hands_info).
Proof.
  unfold main. cbv zeta.
  destruct (detect_hands norm init results) as [[[d' hi] msgs]|] eqn:E;
    [|discriminate].
  cbn [bind]. intros Hrun.
  pose proof (detect_hands_at_most_two norm _ _ _ _ _ E) as Hle.
  assert (Hlog : motion_log
                 = map (fun msg => ("[" ++ timestamp ++ "] " ++ msg)%string)
                       msgs /\ hands_info = hi).
  { destruct msgs as [|m ms]; [injection Hrun as <- <-; split; reflexivity|].
    cbn [app] in Hrun.
    replace (20 <? len (map (fun msg => ("[" ++ timestamp ++ "] " ++ msg)
                                        %string) (m :: ms)))
      with false in Hrun.
    - injection Hrun as <- <-. split; reflexivity.
    - symmetry. apply Z.ltb_ge. unfold len. rewrite length_map. lia. }
  destruct Hlog as [-> ->].
  split.
  - exists d', msgs. split; [reflexivity|]. split; [reflexivity|].
    rewrite length_map. exact Hle.
  - intros Hfew. unfold detect_hands in E.
    destruct results as [|det rest].
    + cbn [bind] in E. injection E as _ <- <-. split; constructor.
    + destruct (process_hands norm (init, [], []) (det :: rest))
        as [[[d1 hi1] mm1]|] eqn:Ep; [|discriminate].
      cbn [bind] in E. injection E as _ <- <-.
      destruct (process_hands_unknown norm _ _ _ _ _ _ _ Ep)
        as [-> [new [Hn Hall]]].
      * intros j. split; [left; destruct j; reflexivity|].
        intros _. destruct j; reflexivity.
      * intros j. destruct j; cbn [get hand_history init at_left at_right];
          cbn [length] in *; lia.
      * cbn [app] in Hn. subst hi1. split; [reflexivity|exact Hall].
Qed.

Lemma main_reports_no_motion_witness :
  exists info,
    main plain_norm [(back_hand, Right)] "12:00:00" = Ret ([info], []) /\
    hi_motion_status info = "Unknown"%string.
Proof.
  assert (E : exists info, main plain_norm [(back_hand, Right)] "12:00:00"
                           = Ret ([info], [])).
  { vm_compute. eexists. reflexivity. }
  destruct E as [info E]. exists info. split; [exact E|].
  destruct (main_reports_no_motion plain_norm _ _ _ _ E) as [_ H].
  destruct H as [_ Hall]; [cbn; lia|].
  inversion Hall. assumption.
Defined.

(** ** The entry point for landmarks computed elsewhere *)

Lemma key_of_label (h : hand_type) : key_of (label h) = Some h.
Proof. destruct h; reflexivity. Qed.

Lemma key_of_some (s : string) (h : hand_type) :
  key_of s = Some h -> s = label h.
Proof.
  unfold key_of.
  destruct (s =? "Left")%string eqn:El.
  - intros E. injection E as <-. apply String.eqb_eq. exact El.
  - destruct (s =? "Right")%string eqn:Er; [|discriminate].
    intros E. injection E as <-. apply String.eqb_eq. exact Er.
Qed.

Lemma is_palm_showing_label_typed (lm : landmarks) (h : hand_type) :
  is_palm_showing_label lm (label h) = is_palm_showing lm h.
Proof. destruct h; reflexivity. Qed.

Lemma count_fingers_label_typed (lm : landmarks) (h : hand_type) :
  count_fingers_label lm (label h) = count_fingers lm h.
Proof. destruct h; reflexivity. Qed.

Lemma to_point_dict_of_point (p : point) :
  to_point (dict_of_point p) = Returns p.
Proof. destruct p. reflexivity. Qed.

Lemma omapM_dict_of_point (lm : landmarks) :
  omapM to_point (map dict_of_point lm) = Returns lm.
Proof.
  induction lm as [|p lm IH]; [reflexivity|].
  cbn [map omapM]. rewrite to_point_dict_of_point, IH. reflexivity.
Qed.

Lemma omapM_length {A B : Type} (f : A -> outcome B) (l : list A)
  (bs : list B) :
  omapM f l = Returns bs -> length bs = length l.
Proof.
  revert bs. induction l as [|a l IH]; intros bs H.
  - cbn in H. injection H as <-. reflexivity.
  - cbn [omapM] in H. destruct (f a) as [b|e]; [|discriminate].
    cbn [obind] in H. destruct (omapM f l) as [bs'|e]; [|discriminate].
    cbn [obind] in H. injection H as <-. cbn [length].
    rewrite (IH bs' eq_refl). reflexivity.
Qed.

Section AndroidFacts.

Variable norm : vec3 -> float.

Lemma track_hand_motion_label_typed (d : HandDetector) (lm : landmarks)
  (h : hand_type) (palm : bool) :
  track_hand_motion_label norm d lm (label h) palm
  = lift (track_hand_motion norm d lm h palm).
Proof.
  unfold track_hand_motion_label, track_hand_motion.
  rewrite key_of_label.
  destruct (getitem lm 0); [|reflexivity].
  destruct (getitem lm 5); [|reflexivity].
  destruct (getitem lm 17); [|reflexivity].
  destruct (getitem lm 12); reflexivity.
Qed.

Lemma android_hand_typed
  (acc : HandDetector * list hand_info * list string)
  (raw : list point_dict) (lm : landmarks) (h : hand_type) :
  omapM to_point raw = Returns lm ->
  android_hand norm acc (raw, label h) = lift (process_hand norm acc (lm, h)).
Proof.
  intros Hraw. destruct acc as [[d hi] mm].
  unfold android_hand, process_hand. rewrite Hraw. cbn [obind].
  rewrite count_fingers_label_typed, is_palm_showing_label_typed.
  destruct (count_fingers lm h) as [[n st]|]; [|reflexivity].
  cbn [lift obind bind].
  destruct (is_palm_showing lm h) as [palm|]; [|reflexivity].
  cbn [lift obind bind].
  rewrite track_hand_motion_label_typed.
  destruct (track_hand_motion norm d lm h palm) as [[d1 r]|];
    [|reflexivity].
  cbn [lift obind bind]. rewrite key_of_label. reflexivity.
Qed.

Lemma android_hand_returns
  (acc acc' : HandDetector * list hand_info * list string)
  (raw : list point_dict) (s : string) :
  android_hand norm acc (raw, s) = Returns acc' ->
  exists lm h,
    omapM to_point raw = Returns lm /\ s = label h /\
    process_hand norm acc (lm, h) = Ret acc'.
Proof.
  intros Hrun.
  assert (Hk : exists lm h, omapM to_point raw = Returns lm /\
                            key_of s = Some h).
  { destruct acc as [[d hi] mm]. unfold android_hand in Hrun.
    destruct (omapM to_point raw) as [lm|e]; [|discriminate].
    cbn [obind] in Hrun.
    destruct (lift (count_fingers_label lm s)) as [[n st]|e];
      [|discriminate].
    cbn [obind] in Hrun.
    destruct (lift (is_palm_showing_label lm s)) as [palm|e];
      [|discriminate].
    cbn [obind] in Hrun.
    destruct (track_hand_motion_label norm d lm s palm) as [[d1 r]|e];
      [|discriminate].
    cbn [obind] in Hrun.
    destruct (key_of s) as [h|]; [|discriminate]. eauto. }
  destruct Hk as [lm [h [Hraw Hkey]]].
  apply key_of_some in Hkey. subst s.
  exists lm, h. split; [exact Hraw|]. split; [reflexivity|].
  rewrite (android_hand_typed acc raw lm h Hraw) in Hrun.
  destruct (process_hand norm acc (lm, h)); [|discriminate].
  injection Hrun as <-. reflexivity.
Qed.

Lemma android_hands_typed (lms : list landmarks) :
  forall (raws : list (list point_dict)) (hs : list hand_type)
         (acc : HandDetector * list hand_info * list string),
  Forall2 (fun raw lm => omapM to_point raw = Returns lm) raws lms ->
  android_hands norm acc (combine raws (map label hs))
  = lift (process_hands norm acc (combine lms hs)).
Proof.
  induction lms as [|lm lms IH]; intros raws hs acc Hall.
  - inversion Hall; subst. reflexivity.
  - inversion Hall as [|raw ? raws' ? Hraw Hrest]; subst.
    destruct hs as [|h hs]; [reflexivity|].
    cbn [map combine android_hands process_hands].
    rewrite (android_hand_typed acc raw lm h Hraw).
    destruct (process_hand norm acc (lm, h)) as [acc1|]; [|reflexivity].
    cbn [lift obind bind]. apply IH. exact Hrest.
Qed.

Lemma android_hands_returns (dets : list (list point_dict * string)) :
  forall acc acc',
  android_hands norm acc dets = Returns acc' ->
  exists results,
    process_hands norm acc results = Ret acc' /\
    length results = length dets.
Proof.
  induction dets as [|[raw s] rest IH]; intros acc acc' Hrun.
  - cbn in Hrun. injection Hrun as <-. exists []. split; reflexivity.
  - cbn [android_hands] in Hrun.
    destruct (android_hand norm acc (raw, s)) as [acc1|e] eqn:E1;
      [|discriminate].
    cbn [obind] in Hrun.
    apply android_hand_returns in E1. destruct E1 as [lm [h [_ [_ E1]]]].
    destruct (IH _ _ Hrun) as [results [Hp Hl]].
    exists ((lm, h) :: results). split.
    + cbn [process_hands]. rewrite E1. cbn [bind]. exact Hp.
    + cbn [length]. rewrite Hl. reflexivity.
Qed.

Lemma from_landmarks_effect (d d' : HandDetector)
  (lms : list (list point_dict)) (labels : list string)
  (hi : list hand_info) (msgs : list string) (h : hand_type) :
  detect_hands_from_landmarks norm d lms labels = Returns (d', hi, msgs) ->
  loop_effect h d d' msgs /\
  (get h (hand_history d) <> [] -> get h (hand_history d') <> []) /\
  (length (filter (is_flip_for h) msgs) <= 1)%nat.
Proof.
  unfold detect_hands_from_landmarks. intros Hrun.
  apply android_hands_returns in Hrun. destruct Hrun as [results [Hp _]].
  pose proof (process_hands_effect norm _ _ _ _ _ _ _ Hp)
    as [new [Hm Heff]].
  cbn [app] in Hm. subst new.
  split; [apply Heff|]. split.
  - intros Hne.
    destruct (process_hands_history norm _ _ _ _ _ _ _ h Hp)
      as [_ [_ Hn]].
    apply Hn. right. exact Hne.
  - destruct (process_hands_messages norm _ _ _ _ _ _ _ Hp)
      as [new [Hm [_ Hcount]]].
    cbn [app] in Hm. subst new. apply Hcount.
Qed.

Lemma run_from_landmarks_blocked
  (frames : list (list (list point_dict) * list string)) :
  forall (d d' : HandDetector) (out : list (list string)) (h : hand_type),
  run_from_landmarks norm d frames = Returns (d', out) ->
  0 < get h (flip_cooldown d) ->
  get h (flip_cooldown d') = get h (flip_cooldown d) /\
  Forall (fun msgs => flip_among h msgs = false) out.
Proof.
  induction frames as [|[lms labels] rest IH]; intros d d' out h Hrun Hpos.
  - cbn in Hrun. injection Hrun as <- <-. split; [reflexivity|constructor].
  - cbn [run_from_landmarks] in Hrun.
    destruct (detect_hands_from_landmarks norm d lms labels)
      as [[[d1 hi] msgs]|e] eqn:E1; [|discriminate].
    cbn [obind] in Hrun.
    destruct (run_from_landmarks norm d1 rest) as [[d2 out2]|e] eqn:E2;
      [|discriminate].
    cbn [obind] in Hrun. injection Hrun as <- <-.
    destruct (from_landmarks_effect _ _ _ _ _ _ h E1) as [[Hp _] _].
    destruct (Hp Hpos) as [Hc [_ Hf]].
    destruct (IH _ _ _ h E2) as [Hc2 Hall]; [lia|].
    split; [congruence|]. constructor; assumption.
Qed.

Lemma run_from_landmarks_one_flip
  (frames : list (list (list point_dict) * list string)) :
  forall (d d' : HandDetector) (out : list (list string)) (h : hand_type),
  run_from_landmarks norm d frames = Returns (d', out) ->
  (length (filter (is_flip_for h) (concat out)) <= 1)%nat.
Proof.
  pose proof (eq_refl : cooldown_frames = 15) as Hcf.
  induction frames as [|[lms labels] rest IH]; intros d d' out h Hrun.
  - cbn in Hrun. injection Hrun as _ <-. cbn. lia.
  - cbn [run_from_landmarks] in Hrun.
    destruct (detect_hands_from_landmarks norm d lms labels)
      as [[[d1 hi] msgs]|e] eqn:E1; [|discriminate].
    cbn [obind] in Hrun.
    destruct (run_from_landmarks norm d1 rest) as [[d2 out2]|e] eqn:E2;
      [|discriminate].
    cbn [obind] in Hrun. injection Hrun as _ <-.
    cbn [concat]. rewrite filter_app, length_app.
    destruct (from_landmarks_effect _ _ _ _ _ _ h E1) as [[Hp Hz] [_ Hone]].
    pose proof (IH _ _ _ h E2) as Hrest.
    destruct (filter (is_flip_for h) msgs) as [|m ms] eqn:Ef;
      [cbn [length]; lia|].
    assert (Hfl : flip_among h msgs = true).
    { unfold flip_among. apply existsb_exists. exists m.
      assert (Hin : In m (filter (is_flip_for h) msgs))
        by (rewrite Ef; left; reflexivity).
      apply filter_In in Hin. exact Hin. }
    assert (Hc1 : 0 < get h (flip_cooldown d1)).
    { destruct (Z.lt_ge_cases 0 (get h (flip_cooldown d))) as [Hpos|Hle].
      - destruct (Hp Hpos) as [_ [_ Hno]]. congruence.
      - destruct (Hz Hle) as [[_ Hno]|[Hc _]]; [congruence|lia]. }
    destruct (run_from_landmarks_blocked _ _ _ _ h E2 Hc1) as [_ Hall].
    assert (Hnone : filter (is_flip_for h) (concat out2) = []).
    { clear -Hall. induction Hall as [|ms' out' Hno _ IHo]; [reflexivity|].
      cbn [concat]. rewrite filter_app, IHo, app_nil_r.
      unfold flip_among in Hno. clear -Hno.
      induction ms' as [|a ms' IHm]; [reflexivity|].
      cbn [existsb] in Hno. apply orb_false_iff in Hno.
      destruct Hno as [Ha Hr]. cbn [filter]. rewrite Ha. apply IHm.
      exact Hr. }
    rewrite Hnone. cbn [length] in *. lia.
Qed.

End AndroidFacts.

(** X14. On point dicts that convert to landmark lists and on labels
    "Left" and "Right", [detect_hands_from_landmarks] does exactly what the
    loop of [detect_hands] does on the converted detections, pairing the
    two lists up to the shorter one: same state, same records, same
    messages, same [IndexError]; it only leaves out the reset and the
    countdown that [detect_hands] adds around that loop.  A point given
    without "z" is read with z = 0. *)
Theorem from_landmarks_is_the_detection_loop (norm : vec3 -> float)
  (d : HandDetector) (raws : list (list point_dict))
  (lms : list landmarks) (hs : list hand_type) :
  Forall2 (fun raw lm => omapM to_point raw = Returns lm) raws lms ->
  detect_hands_from_landmarks norm d raws (map label hs)
  = lift (process_hands norm (d, [], []) (combine lms hs)) /\
  (forall lm, omapM to_point (dicts_of lm) = Returns lm) /\
  (forall lm, omapM to_point (flat_dicts_of lm)
              = Returns (map (fun p => Point (x p) (y p) 0) lm)).
Proof.
  intros Hall. split; [|split].
  - unfold detect_hands_from_landmarks.
    apply android_hands_typed. exact Hall.
  - intros lm. apply omapM_dict_of_point.
  - intros lm. unfold flat_dicts_of.
    induction lm as [|p lm IH]; [reflexivity|].
    cbn [map omapM]. rewrite IH. reflexivity.
Qed.

Lemma from_landmarks_is_the_detection_loop_witness :
  detect_hands_from_landmarks plain_norm init [dicts_of palm_hand]
                              ["Right"%string]
  = lift (process_hands plain_norm (init, [], []) [(palm_hand, Right)]).
Proof.
  destruct (from_landmarks_is_the_detection_loop plain_norm init
              [dicts_of palm_hand] [palm_hand] [Right]) as [H _].
  - constructor; [apply omapM_dict_of_point|constructor].
  - exact H.
Defined.

(** X15. [detect_hands_from_landmarks] never counts a cooldown down and
    never clears a window.  A frame leaves a positive cooldown as it is
    and emits nothing for that hand; a window that holds samples still
    holds samples afterwards; a call without detections returns the state
    unchanged.  So over any run of such calls a hand whose cooldown is
    positive never flips again, and from a new detector each hand gets at
    most one flip message in the whole run. *)
Theorem from_landmarks_never_counts_down (norm : vec3 -> float) (h : hand_type) :
  (forall d lms labels d' hi msgs,
     detect_hands_from_landmarks norm d lms labels = Returns (d', hi, msgs) ->
     (0 < get h (flip_cooldown d) ->
      get h (flip_cooldown d') = get h (flip_cooldown d) /\
      flip_among h msgs = false) /\
     (get h (flip_cooldown d) <= 0 ->
      get h (flip_cooldown d') = get h (flip_cooldown d) \/
      get h (flip_cooldown d') = 15) /\
     (get h (hand_history d) <> [] -> get h (hand_history d') <> [])) /\
  (forall d labels,
     detect_hands_from_landmarks norm d [] labels = Returns (d, [], [])) /\
  (forall d frames d' out,
     run_from_landmarks norm d frames = Returns (d', out) ->
     0 < get h (flip_cooldown d) ->
     get h (flip_cooldown d') = get h (flip_cooldown d) /\
     Forall (fun msgs => flip_among h msgs = false) out) /\
  (forall frames d' out,
     run_from_landmarks norm init frames = Returns (d', out) ->
     (length (filter (is_flip_for h) (concat out)) <= 1)%nat).
Proof.
  split; [|split; [|split]].
  - intros d lms labels d' hi msgs Hrun.
    destruct (from_landmarks_effect norm _ _ _ _ _ _ h Hrun)
      as [[Hp Hz] [Hne _]].
    split; [|split; [|exact Hne]].
    + intros Hpos. destruct (Hp Hpos) as [Hc [_ Hf]]. split; assumption.
    + intros Hle. destruct (Hz Hle) as [[Hc _]|[Hc _]];
        [left; exact Hc|right; exact Hc].
  - intros d labels. reflexivity.
  - intros d frames d' out Hrun Hpos.
    apply (run_from_landmarks_blocked norm frames d d' out h Hrun Hpos).
  - intros frames d' out Hrun.
    apply (run_from_landmarks_one_flip norm frames init d' out h Hrun).
Qed.

Lemma from_landmarks_never_counts_down_witness :
  exists d' out,
    run_from_landmarks plain_norm init
      (turning_calls 15 ++ [([dicts_of palm_hand], ["Right"%string])])
    = Returns (d', out) /\
    (length (filter (is_flip_for Right) (concat out)) <= 1)%nat.
Proof.
  assert (E : exists d' out,
            run_from_landmarks plain_norm init
              (turning_calls 15 ++ [([dicts_of palm_hand], ["Right"%string])])
            = Returns (d', out)).
  { vm_compute. do 2 eexists. reflexivity. }
  destruct E as [d' [out E]]. exists d', out. split; [exact E|].
  destruct (from_landmarks_never_counts_down plain_norm Right)
    as [_ [_ [_ H]]].
  apply (H _ _ _ E).
Defined.

(** The run that flips twice through [detect_hands] flips once here: the
    cooldown armed at frame 5 is still 15 at frame 20. *)
Example from_landmarks_flips_once :
  outcome_messages
    (run_from_landmarks plain_norm init
       (turning_calls 15 ++ [([dicts_of palm_hand], ["Right"%string])]))
  = [[]; []; []; [];
     ["Right Hand flipped: Palm to Back (velocity: 0.5000)"%string];
     []; []; []; []; []; []; []; []; []; []; []; []; []; []; []].
Proof. vm_compute. reflexivity. Qed.

(** ** What the entry point raises *)










(** ** A frame without hands *)

(** X17. A frame without detections puts every detector reached from a
    new one back to the windows and statuses of a new detector: both
    windows empty, both statuses Unknown, no record, no message.  Only the
    cooldowns are kept, each lowered by 1 if it was positive. *)
Theorem empty_frame_resets (norm : vec3 -> float)
  (frames : list (list (landmarks * hand_type))) (d : HandDetector)
  (out : list (list string)) :
  run norm init frames = Ret (d, out) ->
  exists d',
    detect_hands norm d [] = Ret (d', [], []) /\
    hand_history d' = hand_history init /\
    hand_motion_status d' = hand_motion_status init /\
    forall h, get h (flip_cooldown d')
              = Z.max 0 (get h (flip_cooldown d) - 1).
Proof.
  intros Hrun.
  assert (Hinv : forall k, status_inv d k /\
                           0 <= get k (flip_cooldown d) <= 14).
  { apply (run_invariant norm frames init d out Hrun).
    intros k. split; [split|].
    - left. destruct k; reflexivity.
    - intros _. destruct k; reflexivity.
    - destruct k; cbn; lia. }
  eexists. split; [reflexivity|].
  assert (Hh : forall h,
            get h (hand_history
                     (fold_left tick_cooldown [Left; Right]
                        (fold_left reset_hand [Left; Right] d))) = [] /\
            get h (hand_motion_status
                     (fold_left tick_cooldown [Left; Right]
                        (fold_left reset_hand [Left; Right] d)))
            = "Unknown"%string /\
            get h (flip_cooldown
                     (fold_left tick_cooldown [Left; Right]
                        (fold_left reset_hand [Left; Right] d)))
            = Z.max 0 (get h (flip_cooldown d) - 1)).
  { intros h.
    destruct (tick_both (fold_left reset_hand [Left; Right] d) h)
      as [Hc [Hhist Hst]].
    destruct (reset_both d h) as [Hr [Hs Hcd]].
    cbv zeta in Hc, Hhist, Hst, Hr, Hs, Hcd.
    rewrite Hhist, Hst, Hc, Hr, Hs, Hcd.
    destruct (Hinv h) as [[_ Hunk] Hb].
    split; [reflexivity|]. split.
    - destruct (0 <? len (get h (hand_history d))) eqn:E; [reflexivity|].
      apply Z.ltb_ge in E. apply Hunk. lia.
    - destruct (0 <? get h (flip_cooldown d)) eqn:E.
      + apply Z.ltb_lt in E. lia.
      + apply Z.ltb_ge in E. lia. }
  split; [|split].
  - destruct (Hh Left) as [Hl _]. destruct (Hh Right) as [Hr _].
    cbn [get] in Hl, Hr.
    destruct (hand_history _) as [l r]. cbn [at_left at_right] in Hl, Hr.
    subst. reflexivity.
  - destruct (Hh Left) as [_ [Hl _]]. destruct (Hh Right) as [_ [Hr _]].
    cbn [get] in Hl, Hr.
    destruct (hand_motion_status _) as [l r].
    cbn [at_left at_right] in Hl, Hr. subst. reflexivity.
  - intros h. apply (Hh h).
Qed.

Lemma empty_frame_resets_witness :
  exists d',
    detect_hands plain_norm (state_of (run plain_norm init (turning_frames 1))) []
    = Ret (d', [], []) /\
    hand_history d' = hand_history init /\
    hand_motion_status d' = hand_motion_status init /\
    get Right (flip_cooldown d') = 13.
Proof.
  assert (E : exists out,
            run plain_norm init (turning_frames 1)
            = Ret (state_of (run plain_norm init (turning_frames 1)), out)).
  { vm_compute. eexists. reflexivity. }
  destruct E as [out E].
  destruct (empty_frame_resets plain_norm _ _ _ E) as [d' [Hrun [Hh [Hs Hc]]]].
  exists d'. split; [exact Hrun|]. split; [exact Hh|]. split; [exact Hs|].
  rewrite (Hc Right). vm_compute. reflexivity.
Defined.
